(** * Video to GIF converter: a shallow embedding of the React component

    The repository holds one stateful component, [VideoConverter], in two
    revisions:

    - [src/components/VideoConverter.tsx], modelled in [Module Component];
    - the revision kept in [unnamed/part_000] (the FFmpeg instance is created
      lazily and a second banner is rendered once a conversion has finished),
      modelled in [Module Revision].

    The component owns six [useState] cells and one [useRef] cell, talks to an
    external transcoding engine ([FFmpeg]) and to the browser ([URL],
    [console]).  The embedding keeps

    - the six cells in a record [State];
    - the ref cell, the chronological list of calls made to the engine and
      to the browser, and the console output in a record [World];
    - everything the outside world answers (does a call throw, which
      notifications does the engine emit while a call is pending) in a
      record [Env], one per asynchronous handler invocation;
    - [try]/[catch]/[finally] in a small state-and-exception monad [M]. *)

From Stdlib Require Import String Ascii List ZArith QArith Qround Qpower Bool.
From Stdlib Require Import Lia Lqa.
From Stdlib Require Import Strings.Byte.
Import ListNotations.

Open Scope list_scope.
Open Scope string_scope.

(** ** The parts of the JavaScript runtime the component uses *)

Module Js.

(** [s.split(sep)] for a separator made of one code unit.  The result is
    never empty: splitting the empty string gives one empty segment. *)
Fixpoint split (sep : ascii) (s : string) : list string :=
  match s with
  | EmptyString => [EmptyString]
  | String c rest =>
      if Ascii.eqb c sep then EmptyString :: split sep rest
      else match split sep rest with
           | [] => [String c EmptyString]
           | seg :: segs => String c seg :: segs
           end
  end.

(** [a.pop()]: the last element, [undefined] (here [None]) on []. *)
Fixpoint pop {A : Type} (a : list A) : option A :=
  match a with
  | [] => None
  | [x] => Some x
  | _ :: rest => pop rest
  end.

(** [a[0]]. *)
Definition first {A : Type} (a : list A) : option A := hd_error a.

(** String concatenation with a value that may be [undefined]. *)
Definition str (v : option string) : string :=
  match v with
  | Some s => s
  | None => "undefined"
  end.

(** Truthiness of a string, and of a [string | null] cell. *)
Definition truthy (s : string) : bool :=
  match s with
  | EmptyString => false
  | String _ _ => true
  end.

Definition truthy_opt (v : option string) : bool :=
  match v with
  | Some s => truthy s
  | None => false
  end.

(** [v || dflt] on strings. *)
Definition or_else (v : option string) (dflt : string) : string :=
  match v with
  | Some s => if truthy s then s else dflt
  | None => dflt
  end.

(** [s.startsWith(p)]. *)
Definition startsWith (p s : string) : bool := String.prefix p s.

(** [s.includes(p)]. *)
Fixpoint includes (p s : string) : bool :=
  String.prefix p s ||
  match s with
  | EmptyString => false
  | String _ rest => includes p rest
  end.

(** [Math.round]: the nearest integer, ties towards plus infinity. *)
Definition Math_round (x : Q) : Z := Qfloor (x + (1 # 2)).

(** A thrown value, identified with what a template literal prints for
    it. *)
Record Thrown : Type := { toString : string }.

End Js.

(** ** Numbers

    A finite binary64 number is modelled by its exact rational value, and an
    arithmetic operation by the exact operation followed by
    [round_binary64], rounding to the nearest number with a 53-bit
    significand, ties to even, with the subnormal numbers below [2^-1022].
    Infinities and NaN are not modelled: nothing overflows. *)

Definition pow2 (z : Z) : Q := 2 ^ z.

(** The integer part of the binary logarithm of a positive rational. *)
Definition ilog2 (q : Q) : Z :=
  let n := Z.log2_up (Zpos (Qden q)) in
  (Z.log2 (Qfloor (q * pow2 n)) - n)%Z.

(** Rounding to the nearest integer, ties to even. *)
Definition rne (x : Q) : Z :=
  let f := Qfloor x in
  match Qcompare (x - inject_Z f) (1 # 2) with
  | Lt => f
  | Gt => (f + 1)%Z
  | Eq => if Z.even f then f else (f + 1)%Z
  end.

(** The exponent of the unit in the last place of a positive rational. *)
Definition ulp_exp (q : Q) : Z := (Z.max (ilog2 q) (-1022) - 52)%Z.

Definition round_pos (q : Q) : Q :=
  inject_Z (rne (q * pow2 (- ulp_exp q))) * pow2 (ulp_exp q).

Definition round_binary64 (q : Q) : Q :=
  match Qcompare q 0 with
  | Eq => 0
  | Gt => round_pos q
  | Lt => - round_pos (- q)
  end.

(** The product [x * y] of two numbers. *)
Definition fmul (x y : Q) : Q := round_binary64 (x * y).

(** ** Data *)

Record File : Type := {
  name : string;
  contents : list byte
}.

Record Blob : Type := {
  blobParts : list (list byte);
  blobType : string
}.

(** What the engine passes to its ["log"] and ["progress"] listeners. *)
Inductive Notification : Type :=
| Log (logMessage : string)
| Progress (p time : Q).

(** The two closures [loadFfmpeg] registers on the engine. *)
Inductive Listener : Type :=
| logListener
| progressListener.

(** The part of an [FFmpeg] instance the component can observe. *)
Record FFmpeg : Type := { listeners : list (string * Listener) }.

Definition new_FFmpeg : FFmpeg := {| listeners := [] |}.

(** Calls made to the engine and to the browser's [URL] interface. *)
Inductive Call : Type :=
| On (event : string) (l : Listener)
| ToBlobURL (url mimeType : string)
| Load (coreURL wasmURL : string)
| FetchFile (f : File)
| WriteFile (path : string) (data : list byte)
| Exec (args : list string)
| ReadFile (path : string)
| CreateObjectURL (b : Blob)
| RevokeObjectURL (url : string).

Inductive ConsoleValue : Type :=
| VStr (s : string)
| VNum (q : Q)
| VThrown (e : Js.Thrown).

Inductive ConsoleEntry : Type :=
| ConsoleLog (args : list ConsoleValue)
| ConsoleError (args : list ConsoleValue).

(** The six [useState] cells. *)
Record State : Type := {
  ffmpegLoaded : bool;
  videoFile : option File;
  gifUrl : option string;
  isConverting : bool;
  progress : Z;
  message : option string
}.

Record World : Type := {
  st : State;
  ffmpegRef : option FFmpeg;
  calls : list Call;
  console : list ConsoleEntry
}.

(** The [useState] initial values. *)
Definition initialState : State :=
  {| ffmpegLoaded := false;
     videoFile := None;
     gifUrl := None;
     isConverting := false;
     progress := 0;
     message := None |}.

(** ** World transformers: state setters, call log, console *)

Definition with_st (f : State -> State) (w : World) : World :=
  {| st := f (st w);
     ffmpegRef := ffmpegRef w;
     calls := calls w;
     console := console w |}.

Definition setFfmpegLoaded (b : bool) : World -> World :=
  with_st (fun s =>
    {| ffmpegLoaded := b;
       videoFile := videoFile s;
       gifUrl := gifUrl s;
       isConverting := isConverting s;
       progress := progress s;
       message := message s |}).

Definition setVideoFile (f : option File) : World -> World :=
  with_st (fun s =>
    {| ffmpegLoaded := ffmpegLoaded s;
       videoFile := f;
       gifUrl := gifUrl s;
       isConverting := isConverting s;
       progress := progress s;
       message := message s |}).

Definition setGifUrl (u : option string) : World -> World :=
  with_st (fun s =>
    {| ffmpegLoaded := ffmpegLoaded s;
       videoFile := videoFile s;
       gifUrl := u;
       isConverting := isConverting s;
       progress := progress s;
       message := message s |}).

Definition setIsConverting (b : bool) : World -> World :=
  with_st (fun s =>
    {| ffmpegLoaded := ffmpegLoaded s;
       videoFile := videoFile s;
       gifUrl := gifUrl s;
       isConverting := b;
       progress := progress s;
       message := message s |}).

Definition setProgress (n : Z) : World -> World :=
  with_st (fun s =>
    {| ffmpegLoaded := ffmpegLoaded s;
       videoFile := videoFile s;
       gifUrl := gifUrl s;
       isConverting := isConverting s;
       progress := n;
       message := message s |}).

Definition setMessage (m : option string) : World -> World :=
  with_st (fun s =>
    {| ffmpegLoaded := ffmpegLoaded s;
       videoFile := videoFile s;
       gifUrl := gifUrl s;
       isConverting := isConverting s;
       progress := progress s;
       message := m |}).

Definition record_call (c : Call) (w : World) : World :=
  {| st := st w;
     ffmpegRef := ffmpegRef w;
     calls := (calls w ++ [c])%list;
     console := console w |}.

Definition console_log (args : list ConsoleValue) (w : World) : World :=
  {| st := st w;
     ffmpegRef := ffmpegRef w;
     calls := calls w;
     console := (console w ++ [ConsoleLog args])%list |}.

Definition console_error (args : list ConsoleValue) (w : World) : World :=
  {| st := st w;
     ffmpegRef := ffmpegRef w;
     calls := calls w;
     console := (console w ++ [ConsoleError args])%list |}.

Definition set_ref (r : option FFmpeg) (w : World) : World :=
  {| st := st w;
     ffmpegRef := r;
     calls := calls w;
     console := console w |}.

(** ** Notifications

    The body of the two listeners, and the engine delivering a notification
    to every listener registered on the instance, in registration order. *)

Definition run_listener (n : Notification) (w : World) (l : Listener)
  : World :=
  match l, n with
  | logListener, Log logMessage =>
      setMessage (Some logMessage) (console_log [VStr logMessage] w)
  | progressListener, Progress p time =>
      setProgress (Js.Math_round (fmul p 100))
        (console_log [VNum time; VStr "time"] w)
  | _, _ => w
  end.

Definition event_of (n : Notification) : string :=
  match n with
  | Log _ => "log"
  | Progress _ _ => "progress"
  end.

Definition registered_for (event : string) (ffmpeg : FFmpeg)
  : list Listener :=
  map snd (filter (fun r => String.eqb (fst r) event) (listeners ffmpeg)).

Definition notify (w : World) (n : Notification) : World :=
  match ffmpegRef w with
  | Some ffmpeg =>
      fold_left (run_listener n) (registered_for (event_of n) ffmpeg) w
  | None => w
  end.

Definition deliver (ns : list Notification) (w : World) : World :=
  fold_left notify ns w.

(** ** Asynchronous code: state and exceptions *)

Inductive Res (A : Type) : Type :=
| Ok (a : A)
| Throw (e : Js.Thrown).
Arguments Ok {A} a.
Arguments Throw {A} e.

Definition M (A : Type) : Type := World -> Res A * World.

Definition ret {A : Type} (a : A) : M A := fun w => (Ok a, w).

Definition throw {A : Type} (e : Js.Thrown) : M A := fun w => (Throw e, w).

Definition bind {A B : Type} (m : M A) (k : A -> M B) : M B :=
  fun w =>
    match m w with
    | (Ok a, w1) => k a w1
    | (Throw e, w1) => (Throw e, w1)
    end.

Definition lift (f : World -> World) : M unit := fun w => (Ok tt, f w).

Declare Scope js_scope.
Delimit Scope js_scope with js.
Notation "x <- m ;; k" := (bind m (fun x => k))
  (at level 61, m at next level, right associativity) : js_scope.
Notation "m ;; k" := (bind m (fun _ => k))
  (at level 61, right associativity) : js_scope.
Open Scope js_scope.

(** [try { body } catch (error) { handler error }]. *)
Definition try_catch (body : M unit) (handler : Js.Thrown -> M unit)
  : M unit :=
  fun w =>
    match body w with
    | (Ok u, w1) => (Ok u, w1)
    | (Throw e, w1) => handler e w1
    end.

(** [try { body } catch (error) { handler error } finally { fin }]: [fin]
    runs last on every path; what [handler] throws is thrown again after
    it, unless [fin] throws itself. *)
Definition try_catch_finally (body : M unit) (handler : Js.Thrown -> M unit)
  (fin : M unit) : M unit :=
  fun w =>
    match try_catch body handler w with
    | (Ok _, w1) => fin w1
    | (Throw e, w1) =>
        match fin w1 with
        | (Ok _, w2) => (Throw e, w2)
        | (Throw e', w2) => (Throw e', w2)
        end
    end.

(** ** The outside world

    What the browser and the engine answer during one asynchronous handler:
    whether a call throws, what it returns, and which notifications the
    engine emits while the call is pending. *)

Record Env : Type := {
  toBlobURL_res : string -> string -> Res string;
  load_res : string -> string -> list Notification * Res bool;
  fetchFile_res : File -> option Js.Thrown;
  writeFile_res : string -> list byte -> list Notification * Res bool;
  exec_res : list string -> list Notification * Res Z;
  readFile_res : string -> list Notification * Res (list byte);
  createObjectURL_res : Blob -> string
}.

Definition TypeError_null : Js.Thrown :=
  {| Js.toString := "TypeError: Cannot read properties of null" |}.

(** Reading a member of [ffmpegRef.current]. *)
Definition the_ffmpeg : M FFmpeg :=
  fun w =>
    match ffmpegRef w with
    | Some ffmpeg => (Ok ffmpeg, w)
    | None => (Throw TypeError_null, w)
    end.

(** A call that is logged, during which the engine delivers [fst r] to
    the listeners, and that ends as [snd r] says. *)
Definition pending {A : Type} (c : Call) (r : list Notification * Res A)
  : M A :=
  fun w => (snd r, deliver (fst r) (record_call c w)).

(** [ffmpeg.on(event, l)]. *)
Definition ffmpeg_on (event : string) (l : Listener) : M unit :=
  ffmpeg <- the_ffmpeg ;;
  lift (fun w =>
    set_ref (Some {| listeners := (listeners ffmpeg ++ [(event, l)])%list |})
      (record_call (On event l) w)).

Definition toBlobURL (env : Env) (url mimeType : string) : M string :=
  pending (ToBlobURL url mimeType) ([], toBlobURL_res env url mimeType).

Definition ffmpeg_load (env : Env) (coreURL wasmURL : string) : M bool :=
  pending (Load coreURL wasmURL) (load_res env coreURL wasmURL).

Definition fetchFile (env : Env) (f : File) : M (list byte) :=
  pending (FetchFile f)
    ([], match fetchFile_res env f with
         | Some e => Throw e
         | None => Ok (contents f)
         end).

Definition ffmpeg_writeFile (env : Env) (path : string) (data : list byte)
  : M bool :=
  pending (WriteFile path data) (writeFile_res env path data).

Definition ffmpeg_exec (env : Env) (args : list string) : M Z :=
  pending (Exec args) (exec_res env args).

Definition ffmpeg_readFile (env : Env) (path : string) : M (list byte) :=
  pending (ReadFile path) (readFile_res env path).

Definition URL_createObjectURL (env : Env) (b : Blob) : M string :=
  pending (CreateObjectURL b) ([], Ok (createObjectURL_res env b)).

(** ** Code shared by the two revisions

    [handleFileChange], the [try] and [catch] blocks of [loadFfmpeg], and
    [convertToGif] from [setIsConverting(true)] on are the same text in
    both files; they are modelled once. *)

Definition baseURL : string := "https://unpkg.com/@ffmpeg/core@0.12.6/dist/umd".

Definition outputFileName : string := "output.gif".

(** ["input." + videoFile.name.split(".").pop()]. *)
Definition inputFileName (videoFile : File) : string :=
  "input." ++ Js.str (Js.pop (Js.split "."%char (name videoFile))).

(** The argument array of [ffmpeg.exec]. *)
Definition exec_args (videoFile : File) : list string :=
  [ "-i"; inputFileName videoFile; "-vf";
    "fps=15,scale=480:-1:flags=lanczos"; outputFileName ].

(** [handleFileChange]; [files] is [event.target.files]. *)
Definition handleFileChange (files : option (list File)) (w : World)
  : World :=
  match match files with
        | Some l => Js.first l
        | None => None
        end with
  | Some file =>
      setProgress 0
        (setMessage (Some "Video file selected.")
           (setGifUrl None (setVideoFile (Some file) w)))
  | None => w
  end.

Definition load_try (env : Env) : M unit :=
  the_ffmpeg ;;
  coreURL <- toBlobURL env (baseURL ++ "/ffmpeg-core.js")
               "text/javascript" ;;
  wasmURL <- toBlobURL env (baseURL ++ "/ffmpeg-core.wasm")
               "application/wasm" ;;
  ffmpeg_load env coreURL wasmURL ;;
  lift (setFfmpegLoaded true) ;;
  lift (setMessage (Some "FFMPEG loaded successfully!")).

Definition load_catch (error : Js.Thrown) : M unit :=
  lift (console_error [VStr "Error loading FFMPEG:"; VThrown error]) ;;
  lift (setMessage (Some ("Error loading FFMPEG: " ++ Js.toString error))) ;;
  lift (setFfmpegLoaded false).

Definition convert_try (env : Env) (videoFile : File) : M unit :=
  the_ffmpeg ;;
  data <- fetchFile env videoFile ;;
  ffmpeg_writeFile env (inputFileName videoFile) data ;;
  lift (setMessage (Some "Video file written to FFMPEG memory.")) ;;
  lift (setMessage (Some "Running FFMPEG command...")) ;;
  ffmpeg_exec env (exec_args videoFile) ;;
  lift (setMessage (Some "Conversion complete! Reading output...")) ;;
  data <- ffmpeg_readFile env outputFileName ;;
  url <- URL_createObjectURL env
           {| blobParts := [data]; blobType := "image/gif" |} ;;
  lift (setGifUrl (Some url)) ;;
  lift (setMessage (Some "GIF generated successfully!")).

Definition convert_catch (error : Js.Thrown) : M unit :=
  lift (console_error [VStr "Error during conversion:"; VThrown error]) ;;
  lift (setMessage (Some ("Conversion error: " ++ Js.toString error))) ;;
  lift (setGifUrl None).

Definition convert_finally : M unit :=
  lift (setIsConverting false) ;;
  lift (setProgress 100).

(** [convertToGif] once both guards have passed. *)
Definition attempt (env : Env) (videoFile : File) : M unit :=
  lift (setIsConverting true) ;;
  lift (setGifUrl None) ;;
  lift (setProgress 0) ;;
  lift (setMessage (Some "Starting conversion...")) ;;
  try_catch_finally (convert_try env videoFile) convert_catch
    convert_finally.

(** ** What is rendered *)

Inductive Variant : Type :=
| destructive
| default.

Record Alert : Type := {
  variant : Variant;
  alertTitle : string;
  alertDescription : string
}.

Record ProgressPanel : Type := {
  panelLabel : string;
  panelValue : Z;
  panelMessage : option string
}.

Record GifPanel : Type := {
  src : string;
  download : string
}.

(** [None] stands for an element that is not rendered; for the file input
    and the button the boolean is the [disabled] attribute. *)
Record View : Type := {
  statusAlert : option Alert;
  fileInput : option bool;
  convertButton : option bool;
  progressPanel : option ProgressPanel;
  gifPanel : option GifPanel;
  resultAlert : option Alert
}.

(** [message?.startsWith(p)] and [message?.includes(p)] used as
    conditions. *)
Definition opt_startsWith (p : string) (m : option string) : bool :=
  match m with
  | Some s => Js.startsWith p s
  | None => false
  end.

Definition opt_includes (p : string) (m : option string) : bool :=
  match m with
  | Some s => Js.includes p s
  | None => false
  end.

Definition is_some {A : Type} (o : option A) : bool :=
  match o with
  | Some _ => true
  | None => false
  end.

(** The [<Alert>] element of both revisions, with description [d]. *)
Definition alert_of (m : option string) (d : string) : Alert :=
  {| variant := if opt_startsWith "Error" m then destructive else default;
     alertTitle := if opt_startsWith "Error" m then "Error" else "Status";
     alertDescription := d |}.

(** The file input and, nested with it, the "Convert to GIF" button. *)
Definition render_fileInput (s : State) : option bool :=
  if ffmpegLoaded s then Some (isConverting s) else None.

Definition render_convertButton (s : State) : option bool :=
  if ffmpegLoaded s && (is_some (videoFile s) && negb (isConverting s))
  then Some (negb (is_some (videoFile s)) || isConverting s
             || negb (ffmpegLoaded s))
  else None.

Definition render_gifPanel (s : State) : option GifPanel :=
  match gifUrl s with
  | Some url =>
      if Js.truthy url && negb (isConverting s)
      then Some {| src := url;
                   download :=
                     Js.or_else
                       match videoFile s with
                       | Some f => Js.first (Js.split "."%char (name f))
                       | None => None
                       end "converted" ++ ".gif" |}
      else None
  | None => None
  end.

(** User and engine events between renders. *)
Inductive Event : Type :=
| FileChange (files : option (list File))
| ClickConvert (env : Env)
| EngineNotify (n : Notification).

(** ** [src/components/VideoConverter.tsx] *)

Module Component.
(** [useRef(new FFmpeg())]. *)
Definition initial : World :=
  {| st := initialState;
     ffmpegRef := Some new_FFmpeg;
     calls := [];
     console := [] |}.

Definition loadFfmpeg (env : Env) : M unit :=
  lift (setMessage (Some
    "Loading FFMPEG.WASM (ffmpeg.wasm)... This may take a moment.")) ;;
  ffmpeg_on "log" logListener ;;
  ffmpeg_on "progress" progressListener ;;
  try_catch (load_try env) load_catch.

(** The effect run on mount. *)
Definition mount (env : Env) (w : World) : World :=
  snd (loadFfmpeg env w).

Definition convertToGif (env : Env) : M unit :=
  fun w =>
    if negb (ffmpegLoaded (st w)) then
      lift (setMessage (Some "FFMPEG is not loaded yet. Please wait.")) w
    else
      match videoFile (st w) with
      | None =>
          lift (setMessage (Some "Please select a video file first.")) w
      | Some videoFile => attempt env videoFile w
      end.

Definition render (s : State) : View :=
  {| statusAlert :=
       if negb (ffmpegLoaded s) && Js.truthy_opt (message s)
       then Some (alert_of (message s)
                    (Js.or_else (message s) "Loading FFMPEG..."))
       else None;
     fileInput := render_fileInput s;
     convertButton := render_convertButton s;
     progressPanel :=
       if (isConverting s || (0 <? progress s)%Z) && ffmpegLoaded s
       then Some {| panelLabel :=
                      if isConverting s then "Converting..." else "Progress";
                    panelValue := progress s;
                    panelMessage :=
                      if Js.truthy_opt (message s) then message s
                      else None |}
       else None;
     gifPanel := render_gifPanel s;
     resultAlert := None |}.

Definition handle (w : World) (ev : Event) : World :=
  match ev with
  | FileChange files => handleFileChange files w
  | ClickConvert env => snd (convertToGif env w)
  | EngineNotify n => notify w n
  end.

(** A session: mount, then any sequence of events. *)
Definition run (boot : Env) (evs : list Event) : World :=
  fold_left handle evs (mount boot initial).

End Component.

(** ** The revision in [unnamed/part_000] *)

Module Revision.
(** [useRef<FFmpeg | null>(null)]. *)
Definition initial : World :=
  {| st := initialState;
     ffmpegRef := None;
     calls := [];
     console := [] |}.

Definition loadFfmpeg (env : Env) : M unit :=
  lift (fun w =>
    if negb (is_some (ffmpegRef w)) then set_ref (Some new_FFmpeg) w
    else w) ;;
  lift (setMessage (Some
    "Loading FFMPEG.WASM (ffmpeg.wasm)... This may take a moment.")) ;;
  ffmpeg_on "log" logListener ;;
  ffmpeg_on "progress" progressListener ;;
  try_catch (load_try env) load_catch.

Definition mount (env : Env) (w : World) : World :=
  if negb (is_some (ffmpegRef w)) then snd (loadFfmpeg env w) else w.

Definition convertToGif (env : Env) : M unit :=
  fun w =>
    if negb (is_some (ffmpegRef w)) || negb (ffmpegLoaded (st w)) then
      lift (setMessage (Some "FFMPEG is not loaded yet. Please wait.")) w
    else
      match videoFile (st w) with
      | None =>
          lift (setMessage (Some "Please select a video file first.")) w
      | Some videoFile => attempt env videoFile w
      end.

Definition render (s : State) : View :=
  {| statusAlert :=
       if (negb (ffmpegLoaded s)
           || opt_includes "Loading FFMPEG" (message s))
          && Js.truthy_opt (message s)
       then Some (alert_of (message s)
                    (Js.or_else (message s) "Loading FFMPEG..."))
       else None;
     fileInput := render_fileInput s;
     convertButton := render_convertButton s;
     progressPanel :=
       if (isConverting s
           || ((0 <? progress s)%Z && (progress s <? 100)%Z))
          && ffmpegLoaded s
       then Some {| panelLabel :=
                      if isConverting s then "Converting..." else "Progress";
                    panelValue := progress s;
                    panelMessage :=
                      if Js.truthy_opt (message s)
                         && negb (opt_startsWith
                                    "FFMPEG loaded successfully!" (message s))
                      then message s
                      else None |}
       else None;
     gifPanel := render_gifPanel s;
     resultAlert :=
       if ffmpegLoaded s
          && (Js.truthy_opt (message s)
          && (negb (opt_includes "Loading FFMPEG" (message s))
          && (negb (isConverting s)
          && (progress s =? 100)%Z)))
       then Some (alert_of (message s) (Js.or_else (message s) EmptyString))
       else None |}.

Definition handle (w : World) (ev : Event) : World :=
  match ev with
  | FileChange files => handleFileChange files w
  | ClickConvert env => snd (convertToGif env w)
  | EngineNotify n => notify w n
  end.

Definition run (boot : Env) (evs : list Event) : World :=
  fold_left handle evs (mount boot initial).

End Revision.

(** ** Either revision

    The claims hold of both files; [Source] selects one. *)

Inductive Source : Type :=
| components_VideoConverter
| part_000.

Definition render_of (src : Source) : State -> View :=
  match src with
  | components_VideoConverter => Component.render
  | part_000 => Revision.render
  end.

Definition initial_of (src : Source) : World :=
  match src with
  | components_VideoConverter => Component.initial
  | part_000 => Revision.initial
  end.

Definition mount_of (src : Source) : Env -> World -> World :=
  match src with
  | components_VideoConverter => Component.mount
  | part_000 => Revision.mount
  end.

Definition convertToGif_of (src : Source) : Env -> M unit :=
  match src with
  | components_VideoConverter => Component.convertToGif
  | part_000 => Revision.convertToGif
  end.

Definition handle_of (src : Source) : World -> Event -> World :=
  match src with
  | components_VideoConverter => Component.handle
  | part_000 => Revision.handle
  end.

Definition run_of (src : Source) : Env -> list Event -> World :=
  match src with
  | components_VideoConverter => Component.run
  | part_000 => Revision.run
  end.

(** ** Sample worlds

    Concrete answers of the outside world, used to run the model. *)

Definition boom : Js.Thrown := {| Js.toString := "Error: boom" |}.

Definition clip : File :=
  {| name := "holiday.final.mp4"; contents := [x00; x01; x02] |}.

Definition no_extension : File :=
  {| name := "README"; contents := [x52] |}.

(** Every call succeeds; the engine reports while it loads and runs. *)
Definition env_ok : Env :=
  {| toBlobURL_res := fun url _ => Ok ("blob:" ++ url);
     load_res := fun _ _ => ([Log "core loaded"], Ok true);
     fetchFile_res := fun _ => None;
     writeFile_res := fun _ _ => ([], Ok true);
     exec_res := fun _ =>
       ([Log "frame= 1"; Progress (1 # 2) 3; Log "done"], Ok 0%Z);
     readFile_res := fun _ => ([], Ok [x47; x49; x46]);
     createObjectURL_res := fun _ => "blob:gif" |}.

(** The engine's [load] rejects. *)
Definition env_load_fails : Env :=
  {| toBlobURL_res := fun url _ => Ok ("blob:" ++ url);
     load_res := fun _ _ => ([], Throw boom);
     fetchFile_res := fun _ => None;
     writeFile_res := fun _ _ => ([], Ok true);
     exec_res := fun _ => ([], Ok 0%Z);
     readFile_res := fun _ => ([], Ok []);
     createObjectURL_res := fun _ => "blob:gif" |}.

(** The engine's [exec] rejects after some progress. *)
Definition env_exec_fails : Env :=
  {| toBlobURL_res := fun url _ => Ok ("blob:" ++ url);
     load_res := fun _ _ => ([], Ok true);
     fetchFile_res := fun _ => None;
     writeFile_res := fun _ _ => ([], Ok true);
     exec_res := fun _ => ([Log "frame= 1"; Progress (1 # 4) 1], Throw boom);
     readFile_res := fun _ => ([], Ok []);
     createObjectURL_res := fun _ => "blob:gif" |}.

(** A loaded engine and a selected file. *)
Definition file_selected : list Event := [FileChange (Some [clip])].

(** The world after the engine has loaded and [clip] has been selected. *)
Definition ready (src : Source) : World :=
  run_of src env_ok file_selected.

(** The world right after a bootstrap that failed, and after the events
    [file_selected] that followed it. *)
Definition never_loaded (src : Source) : World :=
  run_of src env_load_fails [].

Definition never_loaded_later (src : Source) : World :=
  run_of src env_load_fails file_selected.

(** The world after a conversion of [clip] in which [exec] rejected. *)
Definition failed (src : Source) : World :=
  run_of src env_ok
    [FileChange (Some [clip]); ClickConvert env_exec_fails].

(** ** Vocabulary of the properties *)

Definition is_conversion_call (c : Call) : bool :=
  match c with
  | FetchFile _ | WriteFile _ _ | Exec _ | ReadFile _
  | CreateObjectURL _ => true
  | On _ _ | ToBlobURL _ _ | Load _ _ | RevokeObjectURL _ => false
  end.

Definition is_bootstrap_call (c : Call) : bool :=
  match c with
  | On _ _ | ToBlobURL _ _ | Load _ _ => true
  | FetchFile _ | WriteFile _ _ | Exec _ | ReadFile _
  | CreateObjectURL _ | RevokeObjectURL _ => false
  end.

(** The [ffmpeg.exec] calls of a call list. *)
Definition exec_calls (l : list Call) : list Call :=
  filter (fun c => match c with Exec _ => true | _ => false end) l.

(** The [ffmpeg.on("log", ...)] calls of a call list: [loadFfmpeg] makes
    one each time it is invoked. *)
Definition on_log_calls (l : list Call) : list Call :=
  filter (fun c => match c with
                   | On event _ => String.eqb event "log"
                   | _ => false
                   end) l.

(** The [console.error] entries of the console. *)
Definition error_entries (c : list ConsoleEntry) : list ConsoleEntry :=
  filter (fun e => match e with
                   | ConsoleError _ => true
                   | ConsoleLog _ => false
                   end) c.

(** The instance once [loadFfmpeg] has registered its two closures. *)
Definition both_listeners : FFmpeg :=
  {| listeners := [("log", logListener); ("progress", progressListener)] |}.

(** What a handler leaves alone: the ref cell, the [ffmpegLoaded] cell, and
    the calls already made; the calls it adds belong to a conversion. *)
Definition evolves (w w' : World) : Prop :=
  ffmpegRef w' = ffmpegRef w /\
  ffmpegLoaded (st w') = ffmpegLoaded (st w) /\
  exists l, calls w' = (calls w ++ l)%list /\
            forallb is_conversion_call l = true.

Definition frames {A : Type} (m : M A) : Prop :=
  forall w, evolves w (snd (m w)).

(** A notification changes the [message] and [progress] cells and logs to
    the console, nothing else. *)
Definition quiet (w w' : World) : Prop :=
  ffmpegRef w' = ffmpegRef w /\
  calls w' = calls w /\
  error_entries (console w') = error_entries (console w) /\
  ffmpegLoaded (st w') = ffmpegLoaded (st w) /\
  videoFile (st w') = videoFile (st w) /\
  gifUrl (st w') = gifUrl (st w) /\
  isConverting (st w') = isConverting (st w).

(** The calls one attempt makes, read off the answers of the outside
    world. *)
Definition attempt_calls (env : Env) (f : File) : list Call :=
  FetchFile f ::
  match fetchFile_res env f with
  | Some _ => []
  | None =>
      WriteFile (inputFileName f) (contents f) ::
      match snd (writeFile_res env (inputFileName f) (contents f)) with
      | Throw _ => []
      | Ok _ =>
          Exec (exec_args f) ::
          match snd (exec_res env (exec_args f)) with
          | Throw _ => []
          | Ok _ =>
              ReadFile outputFileName ::
              match snd (readFile_res env outputFileName) with
              | Throw _ => []
              | Ok data =>
                  [CreateObjectURL
                     {| blobParts := [data]; blobType := "image/gif" |}]
              end
          end
      end
  end.

(** Some step of the [try] block of [convertToGif] throws [e]: reading the
    file, writing it, running the command, or reading the output. *)
Inductive step_throws (env : Env) (f : File) (e : Js.Thrown) : Prop :=
| fetch_throws :
    fetchFile_res env f = Some e ->
    step_throws env f e
| write_throws (ns1 : list Notification) :
    fetchFile_res env f = None ->
    writeFile_res env (inputFileName f) (contents f) = (ns1, Throw e) ->
    step_throws env f e
| exec_throws (ns1 ns2 : list Notification) (b : bool) :
    fetchFile_res env f = None ->
    writeFile_res env (inputFileName f) (contents f) = (ns1, Ok b) ->
    exec_res env (exec_args f) = (ns2, Throw e) ->
    step_throws env f e
| read_throws (ns1 ns2 ns3 : list Notification) (b : bool) (z : Z) :
    fetchFile_res env f = None ->
    writeFile_res env (inputFileName f) (contents f) = (ns1, Ok b) ->
    exec_res env (exec_args f) = (ns2, Ok z) ->
    readFile_res env outputFileName = (ns3, Throw e) ->
    step_throws env f e.

(** The [try] block of [loadFfmpeg] throws [e]: fetching either asset, or
    the engine's [load]. *)
Inductive bootstrap_throws (env : Env) (e : Js.Thrown) : Prop :=
| core_throws :
    toBlobURL_res env (baseURL ++ "/ffmpeg-core.js") "text/javascript"
      = Throw e ->
    bootstrap_throws env e
| wasm_throws (coreURL : string) :
    toBlobURL_res env (baseURL ++ "/ffmpeg-core.js") "text/javascript"
      = Ok coreURL ->
    toBlobURL_res env (baseURL ++ "/ffmpeg-core.wasm") "application/wasm"
      = Throw e ->
    bootstrap_throws env e
| load_throws (coreURL wasmURL : string) (ns : list Notification) :
    toBlobURL_res env (baseURL ++ "/ffmpeg-core.js") "text/javascript"
      = Ok coreURL ->
    toBlobURL_res env (baseURL ++ "/ffmpeg-core.wasm") "application/wasm"
      = Ok wasmURL ->
    load_res env coreURL wasmURL = (ns, Throw e) ->
    bootstrap_throws env e.

(** Every cell but [message] is as before, and so are the ref cell, the
    calls and the console. *)
Definition only_message_changed (w w' : World) : Prop :=
  ffmpegRef w' = ffmpegRef w /\
  calls w' = calls w /\
  console w' = console w /\
  ffmpegLoaded (st w') = ffmpegLoaded (st w) /\
  videoFile (st w') = videoFile (st w) /\
  gifUrl (st w') = gifUrl (st w) /\
  isConverting (st w') = isConverting (st w) /\
  progress (st w') = progress (st w).








(** ** Vocabulary of the further properties *)

(** The file an event selects: [handleFileChange] takes the first file of
    the list and ignores an event that carries none. *)
Definition selected_by (ev : Event) : option File :=
  match ev with
  | FileChange (Some (file :: _)) => Some file
  | _ => None
  end.

(** The most recent selection of a sequence of events, [current] when it
    selects nothing. *)
Fixpoint last_selected (evs : list Event) (current : option File)
  : option File :=
  match evs with
  | [] => current
  | ev :: rest =>
      last_selected rest
        match selected_by ev with
        | Some file => Some file
        | None => current
        end
  end.

(** The calls of the [try] block of [loadFfmpeg], read off the answers of
    the outside world. *)
Definition bootstrap_calls (env : Env) : list Call :=
  ToBlobURL (baseURL ++ "/ffmpeg-core.js") "text/javascript" ::
  match toBlobURL_res env (baseURL ++ "/ffmpeg-core.js")
          "text/javascript" with
  | Throw _ => []
  | Ok coreURL =>
      ToBlobURL (baseURL ++ "/ffmpeg-core.wasm") "application/wasm" ::
      match toBlobURL_res env (baseURL ++ "/ffmpeg-core.wasm")
              "application/wasm" with
      | Throw _ => []
      | Ok wasmURL => [Load coreURL wasmURL]
      end
  end.

(** Both assets are fetched and the engine's [load] returns. *)
Definition bootstrap_succeeds (env : Env) : Prop :=
  exists coreURL wasmURL ns b,
    toBlobURL_res env (baseURL ++ "/ffmpeg-core.js") "text/javascript"
    = Ok coreURL /\
    toBlobURL_res env (baseURL ++ "/ffmpeg-core.wasm") "application/wasm"
    = Ok wasmURL /\
    load_res env coreURL wasmURL = (ns, Ok b).

(** What an attempt ends with, the object URL or the thrown value, read off
    the results of its steps: neither the notifications nor the value
    [exec] returns take part. *)
Definition attempt_result (env : Env) (f : File) : Res string :=
  match fetchFile_res env f with
  | Some e => Throw e
  | None =>
      match snd (writeFile_res env (inputFileName f) (contents f)) with
      | Throw e => Throw e
      | Ok _ =>
          match snd (exec_res env (exec_args f)) with
          | Throw e => Throw e
          | Ok _ =>
              match snd (readFile_res env outputFileName) with
              | Throw e => Throw e
              | Ok data =>
                  Ok (createObjectURL_res env
                        {| blobParts := [data]; blobType := "image/gif" |})
              end
          end
      end
  end.

(** The six cells after an attempt that started in [s]. *)
Definition attempt_state (env : Env) (f : File) (s : State) : State :=
  {| ffmpegLoaded := ffmpegLoaded s;
     videoFile := videoFile s;
     gifUrl := match attempt_result env f with
               | Ok url => Some url
               | Throw _ => None
               end;
     isConverting := false;
     progress := 100;
     message := match attempt_result env f with
                | Ok _ => Some "GIF generated successfully!"
                | Throw e => Some ("Conversion error: " ++ Js.toString e)
                end |}.


(** Every call succeeds, [exec] returning the exit code 1. *)
Definition env_exit_code_1 : Env :=
  {| toBlobURL_res := fun url _ => Ok ("blob:" ++ url);
     load_res := fun _ _ => ([], Ok true);
     fetchFile_res := fun _ => None;
     writeFile_res := fun _ _ => ([Log "written"], Ok true);
     exec_res := fun _ => ([Progress 1 9; Log "Error: no stream"], Ok 1%Z);
     readFile_res := fun _ => ([], Ok [x47]);
     createObjectURL_res := fun _ => "blob:partial" |}.

(** A file whose name starts with a dot. *)
Definition dotfile : File :=
  {| name := ".hidden.mov"; contents := [x00] |}.

(** The world after a successful conversion of [clip]. *)
Definition converted (rev : Source) : World :=
  run_of rev env_ok [FileChange (Some [clip]); ClickConvert env_ok].

(** The world after a successful conversion of [dotfile]. *)
Definition converted_dotfile (rev : Source) : World :=
  run_of rev env_ok [FileChange (Some [dotfile]); ClickConvert env_ok].

(** Events tried after a bootstrap that failed. *)
Definition events_after_failure : list Event :=
  [ FileChange (Some [clip]); ClickConvert env_ok;
    EngineNotify (Log "late line") ].


(** * Properties *)

(** ** Numbers *)

(** Powers of two. *)
Lemma pow2_pos z : 0 < pow2 z.
Proof. apply Qpower_0_lt; reflexivity. Qed.

Lemma pow2_add a b : pow2 (a + b) == pow2 a * pow2 b.
Proof. apply Qpower_plus; discriminate. Qed.

Lemma pow2_le a b : (a <= b)%Z -> pow2 a <= pow2 b.
Proof. intros; apply Qpower_le_compat_l; [assumption | discriminate]. Qed.

Lemma pow2_lt_inv a b : pow2 a < pow2 b -> (a < b)%Z.
Proof. intros; apply (Qpower_lt_compat_l_inv 2); [assumption | reflexivity]. Qed.

Lemma pow2_Z n : (0 <= n)%Z -> pow2 n == inject_Z (2 ^ n).
Proof. intros; unfold pow2; now rewrite Zpower_Qpower. Qed.

Lemma pow2_cancel a : pow2 a * pow2 (- a) == 1.
Proof. rewrite <- pow2_add, Z.add_opp_diag_r; reflexivity. Qed.

Lemma scale_le x y e : x <= y -> x * pow2 e <= y * pow2 e.
Proof.
  intros; apply Qmult_le_compat_r; [assumption | apply Qlt_le_weak, pow2_pos].
Qed.

Lemma scale_lt x y e : x < y -> x * pow2 e < y * pow2 e.
Proof. intros; apply Qmult_lt_compat_r; [apply pow2_pos | assumption]. Qed.

(** The binary logarithm brackets its argument between two powers of
    two. *)
Lemma scaled_ge_1 q :
  0 < q -> 1 <= q * pow2 (Z.log2_up (Zpos (Qden q))).
Proof.
  intros Hq.
  assert (Hn : (0 <= Z.log2_up (Zpos (Qden q)))%Z) by apply Z.log2_up_nonneg.
  assert (Hb : (Zpos (Qden q) <= 2 ^ Z.log2_up (Zpos (Qden q)))%Z)
    by (apply Z.log2_up_le_pow2; [reflexivity | apply Z.le_refl]).
  rewrite (pow2_Z _ Hn).
  destruct q as [a b]; cbn [Qden] in *.
  unfold Qlt in Hq; cbn in Hq.
  unfold Qle, Qmult, inject_Z; cbn.
  nia.
Qed.

Lemma ilog2_spec q :
  0 < q -> pow2 (ilog2 q) <= q /\ q < pow2 (ilog2 q + 1).
Proof.
  intros Hq; unfold ilog2.
  set (n := Z.log2_up (Zpos (Qden q))).
  set (s := q * pow2 n).
  assert (Hs : 1 <= s) by (apply scaled_ge_1, Hq).
  assert (Hf : (1 <= Qfloor s)%Z) by (apply (Qfloor_resp_le 1 s Hs)).
  set (k := Z.log2 (Qfloor s)).
  assert (Hk : (0 <= k)%Z) by apply Z.log2_nonneg.
  destruct (Z.log2_spec (Qfloor s)) as [Hlo Hhi]; [lia |].
  fold k in Hlo, Hhi.
  assert (Hq' : q == s * pow2 (- n)).
  { unfold s; rewrite <- Qmult_assoc, pow2_cancel; ring. }
  split.
  - replace (k - n)%Z with (k + - n)%Z by lia.
    rewrite pow2_add, Hq'; apply scale_le.
    rewrite (pow2_Z k Hk).
    apply Qle_trans with (inject_Z (Qfloor s)); [| apply Qfloor_le].
    rewrite <- Zle_Qle; exact Hlo.
  - replace (k - n + 1)%Z with (Z.succ k + - n)%Z by lia.
    rewrite pow2_add, Hq' at 1; apply scale_lt.
    rewrite (pow2_Z (Z.succ k)) by lia.
    apply Qlt_le_trans with (inject_Z (Qfloor s + 1)); [apply Qlt_floor |].
    rewrite <- Zle_Qle; lia.
Qed.

Lemma ilog2_mono a b : 0 < a -> a <= b -> (ilog2 a <= ilog2 b)%Z.
Proof.
  intros Ha Hab.
  assert (Hb : 0 < b) by (apply Qlt_le_trans with a; assumption).
  destruct (ilog2_spec a Ha) as [La _], (ilog2_spec b Hb) as [_ Ub].
  assert (Hlt : pow2 (ilog2 a) < pow2 (ilog2 b + 1)).
  { apply Qle_lt_trans with a; [assumption |].
    apply Qle_lt_trans with b; assumption. }
  apply pow2_lt_inv in Hlt; lia.
Qed.

(** Rounding to an integer is monotone and keeps integers. *)
Lemma rne_mono x y : x <= y -> (rne x <= rne y)%Z.
Proof.
  intros Hxy; pose proof (Qfloor_resp_le _ _ Hxy) as Hf; unfold rne.
  destruct (Qcompare_spec (x - inject_Z (Qfloor x)) (1 # 2)) as [Ex|Ex|Ex];
    destruct (Qcompare_spec (y - inject_Z (Qfloor y)) (1 # 2)) as [Ey|Ey|Ey];
    try destruct (Z.even (Qfloor x)) eqn:Evx;
    try destruct (Z.even (Qfloor y)) eqn:Evy;
    first
      [ lia
      | assert (Qfloor x <> Qfloor y)
          by (intro E; rewrite E in *; first [congruence | lra]);
        lia ].
Qed.

Lemma rne_inject n : rne (inject_Z n) = n.
Proof.
  unfold rne; rewrite Qfloor_Z.
  destruct (Qcompare_spec (inject_Z n - inject_Z n) (1 # 2)) as [E|E|E];
    [exfalso; lra | reflexivity | exfalso; lra].
Qed.

Lemma rne_le x n : x <= inject_Z n -> (rne x <= n)%Z.
Proof. intros Hx; rewrite <- (rne_inject n); now apply rne_mono. Qed.

Lemma rne_ge x n : inject_Z n <= x -> (n <= rne x)%Z.
Proof. intros Hx; rewrite <- (rne_inject n) at 1; now apply rne_mono. Qed.

(** Rounding to binary64 is monotone: within a binade by [rne_mono],
    across binades because a power of two separates the results. *)
Lemma ulp_exp_mono a b : 0 < a -> a <= b -> (ulp_exp a <= ulp_exp b)%Z.
Proof.
  intros Ha Hab; pose proof (ilog2_mono a b Ha Hab); unfold ulp_exp; lia.
Qed.

Lemma round_pos_nonneg q : 0 < q -> 0 <= round_pos q.
Proof.
  intros Hq; unfold round_pos.
  apply Qmult_le_0_compat; [| apply Qlt_le_weak, pow2_pos].
  change 0 with (inject_Z 0); rewrite <- Zle_Qle; apply rne_ge.
  apply Qmult_le_0_compat; apply Qlt_le_weak; [exact Hq | apply pow2_pos].
Qed.

Lemma round_pos_upper q : 0 < q -> round_pos q <= pow2 (ulp_exp q + 53).
Proof.
  intros Hq; destruct (ilog2_spec q Hq) as [_ Hhi].
  unfold round_pos; set (e := ulp_exp q).
  rewrite Z.add_comm, pow2_add; apply scale_le.
  rewrite (pow2_Z 53) by lia; rewrite <- Zle_Qle; apply rne_le.
  rewrite <- (pow2_Z 53) by lia.
  replace 53%Z with ((e + 53) + - e)%Z by lia.
  rewrite pow2_add; apply scale_le.
  apply Qlt_le_weak, Qlt_le_trans with (pow2 (ilog2 q + 1)); [exact Hhi |].
  apply pow2_le; unfold e, ulp_exp; lia.
Qed.

Lemma round_pos_lower q :
  0 < q -> (-1022 <= ilog2 q)%Z -> pow2 (ulp_exp q + 52) <= round_pos q.
Proof.
  intros Hq Hnormal; destruct (ilog2_spec q Hq) as [Hlo _].
  unfold round_pos; set (e := ulp_exp q).
  rewrite Z.add_comm, pow2_add; apply scale_le.
  rewrite (pow2_Z 52) by lia; rewrite <- Zle_Qle; apply rne_ge.
  rewrite <- (pow2_Z 52) by lia.
  replace 52%Z with (ilog2 q + - e)%Z by (unfold e, ulp_exp; lia).
  rewrite pow2_add; apply scale_le; exact Hlo.
Qed.

Lemma round_pos_mono a b : 0 < a -> a <= b -> round_pos a <= round_pos b.
Proof.
  intros Ha Hab.
  assert (Hb : 0 < b) by (apply Qlt_le_trans with a; assumption).
  pose proof (ulp_exp_mono a b Ha Hab) as He.
  destruct (Z.eq_dec (ulp_exp a) (ulp_exp b)) as [E|N].
  - unfold round_pos; rewrite E; apply scale_le.
    rewrite <- Zle_Qle; apply rne_mono, scale_le, Hab.
  - apply Qle_trans with (pow2 (ulp_exp a + 53));
      [now apply round_pos_upper |].
    apply Qle_trans with (pow2 (ulp_exp b + 52)); [apply pow2_le; lia |].
    apply round_pos_lower; [exact Hb | unfold ulp_exp in *; lia].
Qed.

Lemma round_binary64_mono a b :
  a <= b -> round_binary64 a <= round_binary64 b.
Proof.
  intros Hab; unfold round_binary64.
  destruct (Qcompare_spec a 0) as [Ea|Ea|Ea];
    destruct (Qcompare_spec b 0) as [Eb|Eb|Eb];
    try (exfalso; lra); try apply Qle_refl.
  - now apply round_pos_nonneg.
  - assert (0 <= round_pos (- a)) by (apply round_pos_nonneg; lra); lra.
  - assert (round_pos (- b) <= round_pos (- a))
      by (apply round_pos_mono; lra); lra.
  - assert (0 <= round_pos (- a)) by (apply round_pos_nonneg; lra).
    assert (0 <= round_pos b) by (apply round_pos_nonneg; lra); lra.
  - now apply round_pos_mono.
Qed.



(** The rounding is the one of the runtime: [0.285 * 100] is
    [28.499999999999996], so [Math.round] gives 28 where exact arithmetic
    would give 29. *)
Example round_of_0_285_times_100 :
  Js.Math_round (fmul (round_binary64 (285 # 1000)) 100) = 28%Z /\
  Js.Math_round ((285 # 1000) * 100) = 29%Z.
Proof. split; vm_compute; reflexivity. Qed.

(** ** Strings *)

Lemma split_not_nil (sep : ascii) (s : string) : Js.split sep s <> [].
Proof.
  induction s as [|c s IH]; cbn; [discriminate |].
  destruct (Ascii.eqb c sep); [discriminate |].
  destruct (Js.split sep s); discriminate.
Qed.

(** Splitting distributes over a separator. *)
Lemma split_app (sep : ascii) (pre ext : string) :
  Js.split sep (pre ++ String sep ext)
  = (Js.split sep pre ++ Js.split sep ext)%list.
Proof.
  induction pre as [|c pre IH]; cbn.
  - now rewrite Ascii.eqb_refl.
  - rewrite IH; destruct (Ascii.eqb c sep); [reflexivity |].
    pose proof (split_not_nil sep pre) as Hne.
    destruct (Js.split sep pre) as [|seg segs]; [congruence | reflexivity].
Qed.

Lemma pop_app {A : Type} (l1 l2 : list A) :
  l2 <> [] -> Js.pop (l1 ++ l2)%list = Js.pop l2.
Proof.
  intros Hne; induction l1 as [|x l1 IH]; [reflexivity |].
  cbn [app]; rewrite <- IH.
  destruct (l1 ++ l2)%list eqn:E; [| reflexivity].
  apply app_eq_nil in E; destruct E; congruence.
Qed.

Lemma split_without_sep (sep : ascii) (s : string) :
  Js.includes (String sep EmptyString) s = false -> Js.split sep s = [s].
Proof.
  induction s as [|c s IH]; cbn; [reflexivity |].
  intros Hinc; apply orb_false_iff in Hinc; destruct Hinc as [Hp Hrest].
  destruct (Ascii.eqb_spec c sep) as [->|Hneq].
  - destruct (ascii_dec sep sep); [| congruence].
    destruct s; discriminate.
  - now rewrite (IH Hrest).
Qed.

(** The last segment of a name is what follows its last dot. *)
Lemma pop_split_extension (pre ext : string) :
  Js.includes "." ext = false ->
  Js.pop (Js.split "."%char (pre ++ "." ++ ext)) = Some ext.
Proof.
  intros Hext; change ("." ++ ext) with (String "."%char ext).
  rewrite split_app, pop_app by apply split_not_nil.
  now rewrite (split_without_sep _ _ Hext).
Qed.

Lemma startsWith_append (p s : string) : Js.startsWith p (p ++ s) = true.
Proof.
  unfold Js.startsWith; induction p as [|a p IH]; cbn; [now destruct s |].
  destruct (ascii_dec a a); [exact IH | congruence].
Qed.

Lemma includes_append (a p : string) : Js.includes p (a ++ p) = true.
Proof.
  induction a as [|c a IH]; cbn [append].
  - replace (Js.includes p p) with (String.prefix p p || match p with
      | EmptyString => false
      | String _ rest => Js.includes p rest
      end) by (destruct p; reflexivity).
    pose proof (startsWith_append p EmptyString) as Hp.
    unfold Js.startsWith in Hp.
    replace (p ++ EmptyString) with p in Hp; [now rewrite Hp |].
    clear; induction p; cbn; congruence.
  - cbn [Js.includes]; rewrite IH; apply orb_true_r.
Qed.

(** ** Frames *)

Lemma evolves_refl (w : World) : evolves w w.
Proof.
  repeat split; exists []; split; [now rewrite app_nil_r | reflexivity].
Qed.

Lemma evolves_trans (w1 w2 w3 : World) :
  evolves w1 w2 -> evolves w2 w3 -> evolves w1 w3.
Proof.
  intros (R1 & L1 & l1 & C1 & A1) (R2 & L2 & l2 & C2 & A2).
  split; [congruence | split; [congruence |]].
  exists (l1 ++ l2)%list; split.
  - rewrite C2, C1, app_assoc; reflexivity.
  - rewrite forallb_app, A1, A2; reflexivity.
Qed.

Lemma evolves_same (w w' : World) :
  ffmpegRef w' = ffmpegRef w ->
  ffmpegLoaded (st w') = ffmpegLoaded (st w) ->
  calls w' = calls w ->
  evolves w w'.
Proof.
  intros R L C; split; [exact R | split; [exact L |]].
  exists []; split; [now rewrite app_nil_r | reflexivity].
Qed.

Lemma evolves_record_call (c : Call) (w : World) :
  is_conversion_call c = true -> evolves w (record_call c w).
Proof.
  intros Hc; split; [reflexivity | split; [reflexivity |]].
  exists [c]; split; [reflexivity | cbn; now rewrite Hc].
Qed.

Lemma quiet_refl (w : World) : quiet w w.
Proof. repeat split. Qed.

Lemma quiet_trans (w1 w2 w3 : World) :
  quiet w1 w2 -> quiet w2 w3 -> quiet w1 w3.
Proof. unfold quiet; intuition congruence. Qed.

Lemma quiet_evolves (w w' : World) : quiet w w' -> evolves w w'.
Proof. intros (R & C & _ & L & _); now apply evolves_same. Qed.

Lemma error_entries_log (c : list ConsoleEntry) (args : list ConsoleValue) :
  error_entries (c ++ [ConsoleLog args]) = error_entries c.
Proof. unfold error_entries; rewrite filter_app; cbn; apply app_nil_r. Qed.

Lemma error_entries_error (c : list ConsoleEntry)
  (args : list ConsoleValue) :
  error_entries (c ++ [ConsoleError args])
  = (error_entries c ++ [ConsoleError args])%list.
Proof. unfold error_entries; now rewrite filter_app. Qed.

Lemma run_listener_quiet (n : Notification) (w : World) (l : Listener) :
  quiet w (run_listener n w l).
Proof.
  destruct l, n; repeat split; cbn; apply error_entries_log.
Qed.

Lemma notify_quiet (w : World) (n : Notification) : quiet w (notify w n).
Proof.
  unfold notify; destruct (ffmpegRef w) as [ffmpeg|]; [| apply quiet_refl].
  generalize (registered_for (event_of n) ffmpeg); intros ls.
  revert w; induction ls as [|l ls IH]; intros w; cbn.
  - apply quiet_refl.
  - eapply quiet_trans; [apply run_listener_quiet | apply IH].
Qed.

Lemma deliver_quiet (ns : list Notification) (w : World) :
  quiet w (deliver ns w).
Proof.
  unfold deliver; revert w; induction ns as [|n ns IH]; intros w; cbn.
  - apply quiet_refl.
  - eapply quiet_trans; [apply notify_quiet | apply IH].
Qed.

Lemma deliver_nil (w : World) : deliver [] w = w.
Proof. reflexivity. Qed.

Lemma calls_deliver (ns : list Notification) (w : World) :
  calls (deliver ns w) = calls w.
Proof. apply deliver_quiet. Qed.

Lemma ffmpegRef_deliver (ns : list Notification) (w : World) :
  ffmpegRef (deliver ns w) = ffmpegRef w.
Proof. apply deliver_quiet. Qed.

Lemma ffmpegLoaded_deliver (ns : list Notification) (w : World) :
  ffmpegLoaded (st (deliver ns w)) = ffmpegLoaded (st w).
Proof. apply deliver_quiet. Qed.

Lemma errors_deliver (ns : list Notification) (w : World) :
  error_entries (console (deliver ns w)) = error_entries (console w).
Proof. apply deliver_quiet. Qed.

(** *** Frame rules for the monad *)

Lemma frames_ret {A : Type} (a : A) : frames (ret a).
Proof. intros w; apply evolves_refl. Qed.

Lemma frames_bind {A B : Type} (m : M A) (k : A -> M B) :
  frames m -> (forall a, frames (k a)) -> frames (bind m k).
Proof.
  intros Hm Hk w; unfold bind.
  specialize (Hm w); destruct (m w) as [[a|e] w1]; cbn in *.
  - eapply evolves_trans; [exact Hm | apply Hk].
  - exact Hm.
Qed.

Lemma frames_try_catch (body : M unit) (handler : Js.Thrown -> M unit) :
  frames body -> (forall e, frames (handler e)) ->
  frames (try_catch body handler).
Proof.
  intros Hb Hh w; unfold try_catch.
  specialize (Hb w); destruct (body w) as [[u|e] w1]; cbn in *.
  - exact Hb.
  - eapply evolves_trans; [exact Hb | apply Hh].
Qed.

Lemma frames_try_catch_finally (body : M unit)
  (handler : Js.Thrown -> M unit) (fin : M unit) :
  frames body -> (forall e, frames (handler e)) -> frames fin ->
  frames (try_catch_finally body handler fin).
Proof.
  intros Hb Hh Hf w; unfold try_catch_finally.
  pose proof (frames_try_catch body handler Hb Hh w) as Ht.
  destruct (try_catch body handler w) as [[u|e] w1]; cbn in *.
  - eapply evolves_trans; [exact Ht | apply Hf].
  - specialize (Hf w1); destruct (fin w1) as [[u|e'] w2]; cbn in *;
      eapply evolves_trans; eauto.
Qed.

Lemma frames_the_ffmpeg : frames the_ffmpeg.
Proof.
  intros w; unfold the_ffmpeg; destruct (ffmpegRef w); apply evolves_refl.
Qed.

Lemma frames_pending {A : Type} (c : Call)
  (r : list Notification * Res A) :
  is_conversion_call c = true -> frames (pending c r).
Proof.
  intros Hc w; unfold pending; cbn.
  eapply evolves_trans; [apply evolves_record_call, Hc |].
  apply quiet_evolves, deliver_quiet.
Qed.

Lemma frames_update (f : World -> World) :
  (forall w, ffmpegRef (f w) = ffmpegRef w) ->
  (forall w, calls (f w) = calls w) ->
  (forall w, ffmpegLoaded (st (f w)) = ffmpegLoaded (st w)) ->
  frames (lift f).
Proof. intros R C L w; cbn; now apply evolves_same. Qed.

Ltac frame_rules :=
  repeat first
    [ apply frames_bind; [| intros ?]
    | apply frames_try_catch_finally; [| intros ? |]
    | apply frames_update; reflexivity
    | apply frames_pending; reflexivity
    | apply frames_the_ffmpeg
    | apply frames_ret ].

(** Normalises a world reached through setters and notifications. *)
Ltac world_simpl :=
  repeat (cbn -[deliver append error_entries] in *;
          rewrite ?deliver_nil, ?calls_deliver, ?ffmpegRef_deliver,
            ?ffmpegLoaded_deliver, ?errors_deliver,
            ?error_entries_error in * ).

Ltac unfold_monad :=
  unfold try_catch_finally, try_catch, bind, lift, the_ffmpeg, ffmpeg_on,
    toBlobURL, ffmpeg_load, fetchFile, ffmpeg_writeFile, ffmpeg_exec,
    ffmpeg_readFile, URL_createObjectURL, pending.

(** ** Sessions *)

Lemma attempt_frames (env : Env) (f : File) : frames (attempt env f).
Proof.
  unfold attempt, convert_try, convert_catch, convert_finally, fetchFile,
    ffmpeg_writeFile, ffmpeg_exec, ffmpeg_readFile, URL_createObjectURL.
  frame_rules.
Qed.

Lemma handleFileChange_evolves (files : option (list File)) (w : World) :
  evolves w (handleFileChange files w).
Proof.
  unfold handleFileChange.
  destruct (match files with Some l => Js.first l | None => None end);
    [apply evolves_same; reflexivity | apply evolves_refl].
Qed.

Lemma convertToGif_frames (src : Source) (env : Env) :
  frames (convertToGif_of src env).
Proof.
  intros w; destruct src; cbn;
    unfold Component.convertToGif, Revision.convertToGif.
  - destruct (negb (ffmpegLoaded (st w)));
      [apply evolves_same; reflexivity |].
    destruct (videoFile (st w)) as [f|];
      [apply attempt_frames | apply evolves_same; reflexivity].
  - destruct (negb (is_some (ffmpegRef w)) || negb (ffmpegLoaded (st w)));
      [apply evolves_same; reflexivity |].
    destruct (videoFile (st w)) as [f|];
      [apply attempt_frames | apply evolves_same; reflexivity].
Qed.

Lemma handle_evolves (src : Source) (w : World) (ev : Event) :
  evolves w (handle_of src w ev).
Proof.
  destruct src, ev as [files | env | n]; cbn;
    try apply handleFileChange_evolves;
    try (apply quiet_evolves, notify_quiet).
  - apply (convertToGif_frames components_VideoConverter).
  - apply (convertToGif_frames part_000).
Qed.

(** Whatever happens after mount leaves the ref cell and [ffmpegLoaded]
    as mount left them, and adds conversion calls only. *)
Lemma run_evolves (src : Source) (boot : Env) (evs : list Event) :
  evolves (mount_of src boot (initial_of src)) (run_of src boot evs).
Proof.
  assert (G : forall w,
             evolves w (fold_left (handle_of src) evs w)).
  { induction evs as [|ev evs IH]; intros w; cbn.
    - apply evolves_refl.
    - eapply evolves_trans; [apply handle_evolves | apply IH]. }
  destruct src; apply G.
Qed.

(** Mount registers the two listeners, and makes bootstrap calls only. *)
Lemma mount_spec (src : Source) (boot : Env) :
  let w := mount_of src boot (initial_of src) in
  ffmpegRef w = Some both_listeners /\
  forallb is_bootstrap_call (calls w) = true /\
  on_log_calls (calls w) = [On "log" logListener].
Proof.
  destruct src; cbn;
    unfold Component.mount, Component.loadFfmpeg, Revision.mount,
      Revision.loadFfmpeg, load_try, load_catch;
    unfold_monad; world_simpl.
  all: destruct (toBlobURL_res boot _ _) as [coreURL|e]; world_simpl;
    [| repeat split].
  all: destruct (toBlobURL_res boot _ _) as [wasmURL|e]; world_simpl;
    [| repeat split].
  all: destruct (load_res boot coreURL wasmURL) as [ns [b|e]]; world_simpl;
    repeat split.
Qed.

(** In every session the engine instance exists and carries exactly the
    two listeners. *)
Lemma run_ref (src : Source) (boot : Env) (evs : list Event) :
  ffmpegRef (run_of src boot evs) = Some both_listeners.
Proof.
  destruct (run_evolves src boot evs) as (R & _).
  rewrite R; apply mount_spec.
Qed.

(** Past its guards, [convertToGif] is [attempt]. *)
Lemma convertToGif_guarded (src : Source) (env : Env) (w : World)
  (f : File) :
  ffmpegRef w <> None ->
  ffmpegLoaded (st w) = true ->
  videoFile (st w) = Some f ->
  convertToGif_of src env w = attempt env f w.
Proof.
  intros Href Hl Hf; destruct src; cbn;
    unfold Component.convertToGif, Revision.convertToGif;
    rewrite Hl, Hf; [reflexivity |].
  destruct (ffmpegRef w); [reflexivity | congruence].
Qed.

(** The calls of a session are the bootstrap calls of mount followed by
    conversion calls. *)
Lemma run_calls (src : Source) (boot : Env) (evs : list Event) :
  exists l,
    calls (run_of src boot evs)
    = (calls (mount_of src boot (initial_of src)) ++ l)%list /\
    forallb is_conversion_call l = true.
Proof. apply run_evolves. Qed.

Lemma filter_bootstrap_conversion (l : list Call) :
  forallb is_conversion_call l = true -> filter is_bootstrap_call l = [].
Proof.
  induction l as [|c l IH]; cbn; [reflexivity |].
  intros Hc; apply andb_true_iff in Hc; destruct Hc as [Hc Hl].
  rewrite (IH Hl); destruct c; cbn in *; congruence.
Qed.

Lemma on_log_conversion (l : list Call) :
  forallb is_conversion_call l = true -> on_log_calls l = [].
Proof.
  induction l as [|c l IH]; cbn; [reflexivity |].
  intros Hc; apply andb_true_iff in Hc; destruct Hc as [Hc Hl].
  unfold on_log_calls in *; rewrite (IH Hl).
  destruct c; cbn in *; congruence.
Qed.

Lemma filter_all (A : Type) (p : A -> bool) (l : list A) :
  forallb p l = true -> filter p l = l.
Proof.
  induction l as [|x l IH]; cbn; [reflexivity |].
  intros Hp; apply andb_true_iff in Hp; destruct Hp as [Hx Hl].
  now rewrite Hx, (IH Hl).
Qed.

(** *** One attempt *)

Lemma attempt_calls_spec (env : Env) (f : File) (w : World) :
  ffmpegRef w <> None ->
  calls (snd (attempt env f w)) = (calls w ++ attempt_calls env f)%list.
Proof.
  intros Href;
    unfold attempt, attempt_calls, convert_try, convert_catch,
      convert_finally; unfold_monad; world_simpl.
  destruct (ffmpegRef w) as [ffmpeg|]; [clear Href | congruence].
  destruct (fetchFile_res env f) as [e|]; world_simpl; [reflexivity |].
  destruct (writeFile_res env _ _) as [ns1 [b|e]]; world_simpl;
    [| now rewrite <- app_assoc].
  destruct (exec_res env _) as [ns2 [z|e]]; world_simpl;
    [| now rewrite <- !app_assoc].
  destruct (readFile_res env _) as [ns3 [data|e]]; world_simpl;
    now rewrite <- !app_assoc.
Qed.

(** The [finally] block has the last word on two cells. *)
Lemma attempt_finally (env : Env) (f : File) (w : World) :
  isConverting (st (snd (attempt env f w))) = false /\
  progress (st (snd (attempt env f w))) = 100%Z.
Proof.
  unfold attempt, convert_catch, convert_finally, try_catch_finally,
    try_catch, bind, lift; cbn.
  destruct (convert_try env f _) as [[u|e] w1]; cbn; split; reflexivity.
Qed.

Lemma attempt_throws (env : Env) (f : File) (e : Js.Thrown) (w : World) :
  ffmpegRef w <> None ->
  step_throws env f e ->
  let w' := snd (attempt env f w) in
  gifUrl (st w') = None /\
  isConverting (st w') = false /\
  message (st w') = Some ("Conversion error: " ++ Js.toString e) /\
  error_entries (console w')
  = (error_entries (console w)
     ++ [ConsoleError [VStr "Error during conversion:"; VThrown e]])%list.
Proof.
  intros Href Hthrow;
    unfold attempt, convert_try, convert_catch, convert_finally;
    unfold_monad; world_simpl.
  destruct (ffmpegRef w) as [ffmpeg|]; [clear Href | congruence].
  destruct Hthrow as [Hf | ns1 Hf Hw | ns1 ns2 b Hf Hw He
                     | ns1 ns2 ns3 b z Hf Hw He Hr];
    rewrite Hf; world_simpl; try rewrite Hw; world_simpl;
    try rewrite He; world_simpl; try rewrite Hr; world_simpl;
    repeat split.
Qed.

Lemma attempt_succeeds (env : Env) (f : File) (w : World)
  (ns1 ns2 ns3 : list Notification) (b : bool) (z : Z)
  (data : list byte) :
  ffmpegRef w <> None ->
  fetchFile_res env f = None ->
  writeFile_res env (inputFileName f) (contents f) = (ns1, Ok b) ->
  exec_res env (exec_args f) = (ns2, Ok z) ->
  readFile_res env outputFileName = (ns3, Ok data) ->
  let w' := snd (attempt env f w) in
  gifUrl (st w')
  = Some (createObjectURL_res env
            {| blobParts := [data]; blobType := "image/gif" |}) /\
  message (st w') = Some "GIF generated successfully!".
Proof.
  intros Href Hf Hw He Hr;
    unfold attempt, convert_try, convert_catch, convert_finally;
    unfold_monad; world_simpl.
  destruct (ffmpegRef w) as [ffmpeg|]; [clear Href | congruence].
  rewrite Hf; world_simpl; rewrite Hw; world_simpl.
  rewrite He; world_simpl; rewrite Hr; world_simpl.
  split; reflexivity.
Qed.

(** ** Notifications while a call is pending *)








(** ** The claims *)

(** A failed bootstrap leaves [ffmpegLoaded] false and the error text in
    [message]. *)
Lemma mount_fails (src : Source) (boot : Env) (e : Js.Thrown) :
  bootstrap_throws boot e ->
  let w0 := mount_of src boot (initial_of src) in
  ffmpegLoaded (st w0) = false /\
  message (st w0) = Some ("Error loading FFMPEG: " ++ Js.toString e).
Proof.
  intros Hthrow; destruct src; cbn;
    unfold Component.mount, Component.loadFfmpeg, Revision.mount,
      Revision.loadFfmpeg, load_try, load_catch;
    unfold_monad; world_simpl.
  all: destruct Hthrow as [Hc | coreURL Hc Hw | coreURL wasmURL ns Hc Hw Hl];
    rewrite Hc; world_simpl; try rewrite Hw; world_simpl;
    try rewrite Hl; world_simpl; split; reflexivity.
Qed.

(** Text that starts with ["Conversion error: "] never selects the
    destructive variant, text that starts with ["Error loading FFMPEG: "]
    always does. *)
Lemma conversion_error_is_default (description d : string) :
  variant (alert_of (Some ("Conversion error: " ++ description)) d)
  = default.
Proof. reflexivity. Qed.

Lemma load_error_is_destructive (description d : string) :
  variant (alert_of (Some ("Error loading FFMPEG: " ++ description)) d)
  = destructive.
Proof. reflexivity. Qed.

(** After a failed bootstrap both revisions render the status banner with
    the destructive variant. *)
Lemma load_failure_banner (src : Source) (boot : Env) (e : Js.Thrown) :
  bootstrap_throws boot e ->
  statusAlert (render_of src (st (mount_of src boot (initial_of src))))
  = Some {| variant := destructive;
            alertTitle := "Error";
            alertDescription := "Error loading FFMPEG: " ++ Js.toString e |}.
Proof.
  intros Hthrow; destruct (mount_fails src boot e Hthrow) as (Hl & Hm).
  remember (st (mount_of src boot (initial_of src))) as s eqn:Es.
  destruct src; cbn [render_of]; unfold Component.render, Revision.render;
    cbn [statusAlert]; rewrite Hl, Hm; reflexivity.
Qed.

(** After a failed conversion neither revision renders a destructive
    banner, whatever was thrown. *)
Lemma conversion_failure_banner (src : Source) (boot : Env)
  (evs : list Event) (env : Env) (f : File) (e : Js.Thrown) (a : Alert) :
  let w := run_of src boot evs in
  ffmpegLoaded (st w) = true ->
  videoFile (st w) = Some f ->
  step_throws env f e ->
  let v := render_of src (st (snd (convertToGif_of src env w))) in
  statusAlert v = Some a \/ resultAlert v = Some a ->
  variant a = default.
Proof.
  intros w Hl Hf Hthrow v Ha.
  assert (Href : ffmpegRef w <> None)
    by (unfold w; rewrite run_ref; discriminate).
  destruct (convertToGif_frames src env w) as (_ & Hl' & _).
  rewrite Hl in Hl'.
  assert (Hm : message (st (snd (convertToGif_of src env w)))
               = Some ("Conversion error: " ++ Js.toString e)).
  { rewrite (convertToGif_guarded src env w f Href Hl Hf).
    apply (attempt_throws env f e w Href Hthrow). }
  unfold v in Ha; clear v.
  remember (st (snd (convertToGif_of src env w))) as s eqn:Es.
  destruct src; cbn [render_of] in Ha;
    unfold Component.render, Revision.render in Ha;
    cbn [statusAlert resultAlert] in Ha; rewrite Hl', Hm in Ha;
    destruct Ha as [Ha | Ha];
    repeat match type of Ha with
           | (if ?c then _ else _) = _ => destruct c
           end;
    inversion Ha; reflexivity.
Qed.

(** C2.  When a step of a conversion attempt throws (reading the file,
    [writeFile], [exec] or [readFile]), the catch block runs once
    ([console.error] is called once) and the attempt ends with [gifUrl]
    null, [isConverting] false and [message] the text
    ["Conversion error: "] followed by the description of the error,
    which the message therefore contains. *)
Theorem conversion_failure_resets_state (src : Source) (boot : Env)
  (evs : list Event) (env : Env) (f : File) (e : Js.Thrown) :
  let w := run_of src boot evs in
  ffmpegLoaded (st w) = true ->
  videoFile (st w) = Some f ->
  step_throws env f e ->
  let w' := snd (convertToGif_of src env w) in
  gifUrl (st w') = None /\
  isConverting (st w') = false /\
  message (st w') = Some ("Conversion error: " ++ Js.toString e) /\
  Js.includes (Js.toString e) ("Conversion error: " ++ Js.toString e)
  = true /\
  error_entries (console w')
  = (error_entries (console w)
     ++ [ConsoleError [VStr "Error during conversion:"; VThrown e]])%list.
Proof.
  intros w Hl Hf Hthrow.
  assert (Href : ffmpegRef w <> None)
    by (unfold w; rewrite run_ref; discriminate).
  rewrite (convertToGif_guarded src env w f Href Hl Hf).
  destruct (attempt_throws env f e w Href Hthrow) as (G & C & Msg & Err).
  repeat split; try assumption.
  apply includes_append.
Qed.

(** C3.  An attempt that gets as far as the execution step (the guards
    pass, the file is read and written) calls [ffmpeg.exec] exactly once,
    with the arguments ["-i"], the input name, ["-vf"],
    ["fps=15,scale=480:-1:flags=lanczos"], ["output.gif"]. *)
Theorem exec_called_once_with_fixed_arguments (src : Source) (boot : Env)
  (evs : list Event) (env : Env) (f : File) (ns : list Notification)
  (b : bool) :
  let w := run_of src boot evs in
  ffmpegLoaded (st w) = true ->
  videoFile (st w) = Some f ->
  fetchFile_res env f = None ->
  writeFile_res env (inputFileName f) (contents f) = (ns, Ok b) ->
  exists l,
    calls (snd (convertToGif_of src env w)) = (calls w ++ l)%list /\
    exec_calls l
    = [Exec [ "-i"; inputFileName f; "-vf";
              "fps=15,scale=480:-1:flags=lanczos"; "output.gif" ]].
Proof.
  intros w Hl Hf Hfetch Hwrite.
  assert (Href : ffmpegRef w <> None)
    by (unfold w; rewrite run_ref; discriminate).
  rewrite (convertToGif_guarded src env w f Href Hl Hf).
  exists (attempt_calls env f); split; [now apply attempt_calls_spec |].
  unfold attempt_calls; rewrite Hfetch, Hwrite; cbn.
  destruct (exec_res env (exec_args f)) as [ns2 [z|e2]]; cbn;
    [| reflexivity].
  destruct (readFile_res env outputFileName) as [ns3 [data|e3]];
    reflexivity.
Qed.

(** C4.  Once the guards pass and the file is read, the attempt writes
    the bytes of the file under the name ["input."] followed by the last
    dot-separated segment of the file's name: what follows the last dot
    or, for a name without a dot, the whole name. *)
Theorem input_written_under_extension_name (src : Source) (boot : Env)
  (evs : list Event) (env : Env) (f : File) :
  let w := run_of src boot evs in
  ffmpegLoaded (st w) = true ->
  videoFile (st w) = Some f ->
  fetchFile_res env f = None ->
  (exists l,
     calls (snd (convertToGif_of src env w))
     = (calls w
        ++ FetchFile f :: WriteFile (inputFileName f) (contents f) :: l)
       %list) /\
  (forall pre ext,
     name f = pre ++ "." ++ ext -> Js.includes "." ext = false ->
     inputFileName f = "input." ++ ext) /\
  (Js.includes "." (name f) = false ->
   inputFileName f = "input." ++ name f).
Proof.
  intros w Hl Hf Hfetch.
  assert (Href : ffmpegRef w <> None)
    by (unfold w; rewrite run_ref; discriminate).
  rewrite (convertToGif_guarded src env w f Href Hl Hf).
  split; [| split].
  - rewrite (attempt_calls_spec env f w Href).
    unfold attempt_calls; rewrite Hfetch; eexists; reflexivity.
  - intros pre ext Hname Hext; unfold inputFileName.
    now rewrite Hname, (pop_split_extension pre ext Hext).
  - intros Hdot; unfold inputFileName.
    now rewrite (split_without_sep _ _ Hdot).
Qed.

(** C5.  When the bootstrap throws (fetching either asset or the
    engine's [load]), mount leaves [ffmpegLoaded] false and [message] a
    text that starts with ["Error loading FFMPEG:"]; whatever events
    follow, [ffmpegLoaded] stays false, [loadFfmpeg] has registered its
    log listener exactly once, and every bootstrap call of the session
    is one made by mount: nothing retries. *)
Theorem bootstrap_failure_is_terminal (src : Source) (boot : Env)
  (e : Js.Thrown) (evs : list Event) :
  bootstrap_throws boot e ->
  let w0 := mount_of src boot (initial_of src) in
  let w := run_of src boot evs in
  ffmpegLoaded (st w0) = false /\
  message (st w0) = Some ("Error loading FFMPEG: " ++ Js.toString e) /\
  Js.startsWith "Error loading FFMPEG:"
    ("Error loading FFMPEG: " ++ Js.toString e) = true /\
  ffmpegLoaded (st w) = false /\
  on_log_calls (calls w) = [On "log" logListener] /\
  filter is_bootstrap_call (calls w) = calls w0.
Proof.
  intros Hthrow w0 w.
  destruct (mount_fails src boot e Hthrow) as (Hl0 & Hm0).
  destruct (mount_spec src boot) as (_ & Hboot & Hon).
  destruct (run_evolves src boot evs) as (_ & Hl & l & Hcalls & Hconv).
  fold w0 in Hl0, Hm0, Hboot, Hon, Hl, Hcalls; fold w in Hl, Hcalls.
  repeat split; try assumption.
  - congruence.
  - pose proof (on_log_conversion l Hconv) as Hnone.
    rewrite Hcalls; unfold on_log_calls in *.
    now rewrite filter_app, Hon, Hnone.
  - rewrite Hcalls, filter_app, (filter_bootstrap_conversion l Hconv).
    now rewrite app_nil_r, filter_all.
Qed.

(** C6.  When every step of an attempt succeeds, the attempt reads
    ["output.gif"], wraps the bytes in a Blob of type ["image/gif"],
    and stores the object URL made for it in [gifUrl]; and no session,
    whatever its events, ever calls [URL.revokeObjectURL]. *)
Theorem gif_exposed_and_never_revoked (src : Source) (boot : Env)
  (evs : list Event) (env : Env) (f : File)
  (ns1 ns2 ns3 : list Notification) (b : bool) (z : Z)
  (data : list byte) :
  let w := run_of src boot evs in
  ffmpegLoaded (st w) = true ->
  videoFile (st w) = Some f ->
  fetchFile_res env f = None ->
  writeFile_res env (inputFileName f) (contents f) = (ns1, Ok b) ->
  exec_res env (exec_args f) = (ns2, Ok z) ->
  readFile_res env "output.gif" = (ns3, Ok data) ->
  let w' := snd (convertToGif_of src env w) in
  let blob := {| blobParts := [data]; blobType := "image/gif" |} in
  calls w'
  = (calls w
     ++ [ FetchFile f; WriteFile (inputFileName f) (contents f);
          Exec (exec_args f); ReadFile "output.gif";
          CreateObjectURL blob ])%list /\
  gifUrl (st w') = Some (createObjectURL_res env blob) /\
  (forall src' boot' evs' url,
     ~ In (RevokeObjectURL url) (calls (run_of src' boot' evs'))).
Proof.
  intros w Hl Hf Hfetch Hwrite Hexec Hread.
  assert (Href : ffmpegRef w <> None)
    by (unfold w; rewrite run_ref; discriminate).
  rewrite (convertToGif_guarded src env w f Href Hl Hf).
  split; [| split].
  - rewrite (attempt_calls_spec env f w Href).
    unfold attempt_calls, outputFileName in *.
    now rewrite Hfetch, Hwrite, Hexec, Hread.
  - eapply attempt_succeeds; eauto.
  - intros src' boot' evs' url Hin.
    destruct (mount_spec src' boot') as (_ & Hboot & _).
    destruct (run_calls src' boot' evs') as (l & Hcalls & Hconv).
    rewrite Hcalls in Hin; apply in_app_or in Hin.
    rewrite forallb_forall in Hboot, Hconv.
    destruct Hin as [Hin | Hin];
      [apply Hboot in Hin | apply Hconv in Hin]; discriminate.
Qed.

(** C7.  The "Convert to GIF" button is rendered and enabled exactly
    when the engine is loaded, a file is selected and no conversion is
    running; it is never rendered disabled; it is absent when no file is
    selected; and selecting a file in a loaded, idle component renders
    it enabled. *)
Theorem convert_button_enabled_iff (src : Source) (s : State) :
  (convertButton (render_of src s) = Some false <->
   ffmpegLoaded s = true /\ videoFile s <> None /\
   isConverting s = false) /\
  convertButton (render_of src s) <> Some true /\
  (videoFile s = None -> convertButton (render_of src s) = None) /\
  (forall w file files,
     convertButton
       (render_of src (st (handleFileChange (Some (file :: files)) w)))
     = if ffmpegLoaded (st w) && negb (isConverting (st w))
       then Some false else None).
Proof.
  assert (Hbutton : convertButton (render_of src s)
                    = render_convertButton s) by (destruct src; reflexivity).
  rewrite Hbutton; unfold render_convertButton.
  split; [| split; [| split]].
  - destruct (ffmpegLoaded s), (videoFile s), (isConverting s); cbn;
      intuition congruence.
  - destruct (ffmpegLoaded s), (videoFile s), (isConverting s); cbn;
      congruence.
  - intros Hnone; rewrite Hnone; now destruct (ffmpegLoaded s).
  - intros w file files; destruct src; cbn; unfold render_convertButton;
      cbn; destruct (ffmpegLoaded (st w)), (isConverting (st w));
      reflexivity.
Qed.


(** C9.  After an attempt that passes the guards, whether it succeeds
    or throws, [isConverting] is false and [progress] is 100. *)
Theorem finally_marks_complete (src : Source) (boot : Env)
  (evs : list Event) (env : Env) (f : File) :
  let w := run_of src boot evs in
  ffmpegLoaded (st w) = true ->
  videoFile (st w) = Some f ->
  let w' := snd (convertToGif_of src env w) in
  isConverting (st w') = false /\ progress (st w') = 100%Z.
Proof.
  intros w Hl Hf.
  assert (Href : ffmpegRef w <> None)
    by (unfold w; rewrite run_ref; discriminate).
  rewrite (convertToGif_guarded src env w f Href Hl Hf).
  apply attempt_finally.
Qed.

(** C10.  Invoked while the engine is not loaded or while no file is
    selected, [convertToGif] returns without calling the engine and
    changes nothing but [message], which becomes one of the two guard
    texts. *)
Theorem convertToGif_early_return (src : Source) (env : Env) (w : World) :
  ffmpegLoaded (st w) = false \/ videoFile (st w) = None ->
  let r := convertToGif_of src env w in
  fst r = Ok tt /\
  only_message_changed w (snd r) /\
  (message (st (snd r)) = Some "FFMPEG is not loaded yet. Please wait." \/
   message (st (snd r)) = Some "Please select a video file first.").
Proof.
  intros Hguard.
  assert (Hearly :
            convertToGif_of src env w
            = lift (setMessage
                      (Some "FFMPEG is not loaded yet. Please wait.")) w \/
            convertToGif_of src env w
            = lift (setMessage
                      (Some "Please select a video file first.")) w).
  { destruct src; cbn;
      unfold Component.convertToGif, Revision.convertToGif;
      destruct (ffmpegLoaded (st w)), (videoFile (st w)), (ffmpegRef w);
      cbn; destruct Hguard; try discriminate; auto. }
  destruct Hearly as [-> | ->]; unfold only_message_changed; cbn;
    repeat split; auto.
Qed.

(** ** The claims on sample sessions *)

(** After the sample bootstrap failure both revisions render the
    destructive banner. *)
Lemma load_failure_banner_destructive (src : Source) :
  statusAlert (render_of src (st (never_loaded src)))
  = Some {| variant := destructive;
            alertTitle := "Error";
            alertDescription := "Error loading FFMPEG: Error: boom" |}.
Proof. destruct src; reflexivity. Qed.

(** C1.  A conversion in which [exec] rejects with ["Error: boom"] ends
    with the message ["Conversion error: Error: boom"], which does not
    start with ["Error"]: the revision of [unnamed/part_000] renders its
    result banner with the default variant and the title ["Status"], and
    [src/components/VideoConverter.tsx] renders no banner at all, only the
    text in the progress panel.  No destructive banner is shown for this
    thrown error. *)
Theorem conversion_failure_banner_not_destructive :
  message (st (failed part_000)) = Some "Conversion error: Error: boom" /\
  Js.startsWith "Error" "Conversion error: Error: boom" = false /\
  resultAlert (render_of part_000 (st (failed part_000)))
  = Some {| variant := default;
            alertTitle := "Status";
            alertDescription := "Conversion error: Error: boom" |} /\
  statusAlert (render_of part_000 (st (failed part_000))) = None /\
  message (st (failed components_VideoConverter))
  = Some "Conversion error: Error: boom" /\
  statusAlert
    (render_of components_VideoConverter
       (st (failed components_VideoConverter))) = None /\
  resultAlert
    (render_of components_VideoConverter
       (st (failed components_VideoConverter))) = None /\
  progressPanel
    (render_of components_VideoConverter
       (st (failed components_VideoConverter)))
  = Some {| panelLabel := "Progress";
            panelValue := 100;
            panelMessage := Some "Conversion error: Error: boom" |}.
Proof. repeat split. Qed.

Lemma conversion_failure_resets_state_witness :
  (ffmpegLoaded (st (ready part_000)) = true /\
   videoFile (st (ready part_000)) = Some clip /\
   step_throws env_exec_fails clip boom) /\
  gifUrl
    (st (snd (convertToGif_of part_000 env_exec_fails
                (ready part_000)))) = None /\
  isConverting
    (st (snd (convertToGif_of part_000 env_exec_fails
                (ready part_000)))) = false /\
  message
    (st (snd (convertToGif_of part_000 env_exec_fails
                (ready part_000))))
  = Some ("Conversion error: " ++ Js.toString boom) /\
  Js.includes (Js.toString boom) ("Conversion error: " ++ Js.toString boom)
  = true /\
  error_entries
    (console (snd (convertToGif_of part_000
                     env_exec_fails (ready part_000))))
  = (error_entries (console (ready part_000))
     ++ [ConsoleError [VStr "Error during conversion:"; VThrown boom]])%list.
Proof.
  split.
  - repeat split; eapply exec_throws; reflexivity.
  - apply (conversion_failure_resets_state part_000
             env_ok file_selected env_exec_fails clip boom);
      [reflexivity | reflexivity | eapply exec_throws; reflexivity].
Defined.

Lemma exec_called_once_with_fixed_arguments_witness :
  (ffmpegLoaded (st (ready components_VideoConverter)) = true /\
   videoFile (st (ready components_VideoConverter)) = Some clip /\
   fetchFile_res env_ok clip = None /\
   writeFile_res env_ok (inputFileName clip) (contents clip)
   = ([], Ok true)) /\
  exists l,
    calls (snd (convertToGif_of components_VideoConverter
                  env_ok (ready components_VideoConverter)))
    = (calls (ready components_VideoConverter) ++ l)%list /\
    exec_calls l
    = [Exec [ "-i"; "input.mp4"; "-vf";
              "fps=15,scale=480:-1:flags=lanczos"; "output.gif" ]].
Proof.
  split.
  - repeat split.
  - apply (exec_called_once_with_fixed_arguments
             components_VideoConverter env_ok file_selected env_ok clip
             [] true); reflexivity.
Defined.

Lemma input_written_under_extension_name_witness :
  (ffmpegLoaded (st (ready part_000)) = true /\
   videoFile (st (ready part_000)) = Some clip /\
   fetchFile_res env_ok clip = None) /\
  (exists l,
     calls (snd (convertToGif_of part_000 env_ok
                   (ready part_000)))
     = (calls (ready part_000)
        ++ FetchFile clip :: WriteFile "input.mp4" [x00; x01; x02] :: l)
       %list) /\
  (forall pre ext,
     "holiday.final.mp4" = pre ++ "." ++ ext ->
     Js.includes "." ext = false ->
     inputFileName clip = "input." ++ ext) /\
  (Js.includes "." "holiday.final.mp4" = false ->
   inputFileName clip = "input.holiday.final.mp4").
Proof.
  split.
  - repeat split.
  - apply (input_written_under_extension_name part_000
             env_ok file_selected env_ok clip); reflexivity.
Defined.

Lemma bootstrap_failure_is_terminal_witness :
  bootstrap_throws env_load_fails boom /\
  ffmpegLoaded
    (st (mount_of part_000 env_load_fails
           (initial_of part_000))) = false /\
  message
    (st (mount_of part_000 env_load_fails
           (initial_of part_000)))
  = Some "Error loading FFMPEG: Error: boom" /\
  Js.startsWith "Error loading FFMPEG:" "Error loading FFMPEG: Error: boom"
  = true /\
  ffmpegLoaded (st (never_loaded_later part_000)) = false /\
  on_log_calls (calls (never_loaded_later part_000))
  = [On "log" logListener] /\
  filter is_bootstrap_call (calls (never_loaded_later part_000))
  = calls (mount_of part_000 env_load_fails
             (initial_of part_000)).
Proof.
  split.
  - eapply load_throws; reflexivity.
  - apply (bootstrap_failure_is_terminal part_000
             env_load_fails boom file_selected).
    eapply load_throws; reflexivity.
Defined.

Lemma gif_exposed_and_never_revoked_witness :
  (ffmpegLoaded (st (ready components_VideoConverter)) = true /\
   videoFile (st (ready components_VideoConverter)) = Some clip /\
   fetchFile_res env_ok clip = None /\
   writeFile_res env_ok (inputFileName clip) (contents clip)
   = ([], Ok true) /\
   exec_res env_ok (exec_args clip)
   = ([Log "frame= 1"; Progress (1 # 2) 3; Log "done"], Ok 0%Z) /\
   readFile_res env_ok "output.gif" = ([], Ok [x47; x49; x46])) /\
  calls (snd (convertToGif_of components_VideoConverter
                env_ok (ready components_VideoConverter)))
  = (calls (ready components_VideoConverter)
     ++ [ FetchFile clip; WriteFile "input.mp4" [x00; x01; x02];
          Exec (exec_args clip); ReadFile "output.gif";
          CreateObjectURL
            {| blobParts := [[x47; x49; x46]];
               blobType := "image/gif" |} ])%list /\
  gifUrl (st (snd (convertToGif_of
                     components_VideoConverter env_ok
                     (ready components_VideoConverter))))
  = Some "blob:gif" /\
  (forall src' boot' evs' url,
     ~ In (RevokeObjectURL url)
         (calls (run_of src' boot' evs'))).
Proof.
  split.
  - repeat split.
  - apply (gif_exposed_and_never_revoked
             components_VideoConverter env_ok file_selected env_ok clip
             [] [Log "frame= 1"; Progress (1 # 2) 3; Log "done"] []
             true 0%Z [x47; x49; x46]); reflexivity.
Defined.


Lemma finally_marks_complete_witness :
  (ffmpegLoaded (st (ready part_000)) = true /\
   videoFile (st (ready part_000)) = Some clip) /\
  isConverting
    (st (snd (convertToGif_of part_000 env_exec_fails
                (ready part_000)))) = false /\
  progress
    (st (snd (convertToGif_of part_000 env_exec_fails
                (ready part_000)))) = 100%Z.
Proof.
  split.
  - split; reflexivity.
  - apply (finally_marks_complete part_000 env_ok
             file_selected env_exec_fails clip); reflexivity.
Defined.

Lemma convertToGif_early_return_witness :
  (ffmpegLoaded (st (never_loaded part_000)) = false \/
   videoFile (st (never_loaded part_000)) = None) /\
  fst (convertToGif_of part_000 env_ok
         (never_loaded part_000)) = Ok tt /\
  only_message_changed (never_loaded part_000)
    (snd (convertToGif_of part_000 env_ok
            (never_loaded part_000))) /\
  (message
     (st (snd (convertToGif_of part_000 env_ok
                 (never_loaded part_000))))
   = Some "FFMPEG is not loaded yet. Please wait." \/
   message
     (st (snd (convertToGif_of part_000 env_ok
                 (never_loaded part_000))))
   = Some "Please select a video file first.").
Proof.
  split.
  - left; reflexivity.
  - apply (convertToGif_early_return part_000 env_ok
             (never_loaded part_000)).
    left; reflexivity.
Defined.

(** * Further properties *)

(** ** Names *)

(** The last segment of a split is free of the separator, and is the
    whole string or what follows its last separator. *)
Lemma split_last_shape (sep : ascii) (s : string) :
  exists ext,
    Js.pop (Js.split sep s) = Some ext /\
    Js.includes (String sep EmptyString) ext = false /\
    ((Js.split sep s = [s] /\ ext = s) \/
     (exists pre, s = pre ++ String sep ext /\
                  exists x y l, Js.split sep s = x :: y :: l)).
Proof.
  induction s as [|c s (ext & Hpop & Hfree & Hshape)].
  - exists EmptyString; repeat split; left; split; reflexivity.
  - cbn [Js.split]; destruct (Ascii.eqb_spec c sep) as [->|Hneq].
    + exists ext; pose proof (split_not_nil sep s) as Hne.
      destruct (Js.split sep s) as [|z l'] eqn:Es; [congruence |].
      split; [exact Hpop | split; [exact Hfree |]]; right.
      destruct Hshape as [[_ ->] | (pre & -> & _)].
      * exists EmptyString; split; [reflexivity | eauto].
      * exists (String sep pre); split; [reflexivity | eauto].
    + destruct Hshape as [[Hs ->] | (pre & Hs & x & y & l & Hl)].
      * rewrite Hs; exists (String c s); split; [reflexivity |].
        split; [| left; split; reflexivity].
        cbn; rewrite Hfree; destruct (ascii_dec sep c); [congruence |].
        reflexivity.
      * rewrite Hl in *; exists ext; split; [exact Hpop |].
        split; [exact Hfree | right].
        exists (String c pre); split; [now rewrite Hs | eauto].
Qed.

(** The first segment of a split is free of the separator, and is the
    whole string or what precedes its first separator. *)
Lemma split_first_shape (sep : ascii) (s : string) :
  exists seg l,
    Js.split sep s = seg :: l /\
    Js.includes (String sep EmptyString) seg = false /\
    (s = seg \/ exists rest, s = seg ++ String sep rest).
Proof.
  induction s as [|c s (seg & l & Hsplit & Hfree & Hshape)].
  - exists EmptyString, []; repeat split; now left.
  - cbn [Js.split]; destruct (Ascii.eqb_spec c sep) as [->|Hneq].
    + exists EmptyString, (Js.split sep s); repeat split.
      right; exists s; reflexivity.
    + rewrite Hsplit; exists (String c seg), l; split; [reflexivity |].
      split.
      * cbn; rewrite Hfree; destruct (ascii_dec sep c); [congruence |].
        reflexivity.
      * destruct Hshape as [-> | (rest & ->)]; [now left |].
        right; exists rest; reflexivity.
Qed.

(** X1.  Whatever the name of the file, the name it is written under is
    ["input."] followed by a dot-free extension, which is the whole name
    or what follows the last dot of the name: the fallback for an
    undefined segment is never taken. *)
Theorem inputFileName_shape (f : File) :
  exists ext,
    inputFileName f = "input." ++ ext /\
    Js.pop (Js.split "."%char (name f)) = Some ext /\
    Js.includes "." ext = false /\
    (name f = ext \/ exists pre, name f = pre ++ "." ++ ext).
Proof.
  destruct (split_last_shape "."%char (name f))
    as (ext & Hpop & Hfree & Hshape).
  exists ext; unfold inputFileName; rewrite Hpop.
  repeat split; try assumption.
  destruct Hshape as [[_ ->] | (pre & Hs & _)]; [now left |].
  right; exists pre; exact Hs.
Qed.

(** X2.  When the GIF panel is rendered, its link points to [gifUrl] and
    its download name is the part of the file's name before the first dot
    followed by [".gif"]; it is ["converted.gif"] when no file is
    selected, when the name is empty, or when the name starts with a
    dot. *)
Theorem download_name_shape (rev : Source) (s : State) (g : GifPanel) :
  gifPanel (render_of rev s) = Some g ->
  gifUrl s = Some (src g) /\
  isConverting s = false /\
  ((exists f seg,
      videoFile s = Some f /\
      Js.truthy seg = true /\
      Js.includes "." seg = false /\
      (name f = seg \/ exists rest, name f = seg ++ "." ++ rest) /\
      download g = seg ++ ".gif") \/
   ((videoFile s = None \/
     exists f, videoFile s = Some f /\
               (name f = EmptyString \/
                exists rest, name f = "." ++ rest)) /\
    download g = "converted.gif")).
Proof.
  assert (Hpanel : gifPanel (render_of rev s) = render_gifPanel s)
    by (destruct rev; reflexivity).
  rewrite Hpanel; unfold render_gifPanel.
  destruct (gifUrl s) as [url|]; [| discriminate].
  destruct (Js.truthy url); [| discriminate].
  destruct (isConverting s); [discriminate |].
  cbn [andb negb]; intros Hg; injection Hg as <-; cbn [src download].
  split; [reflexivity | split; [reflexivity |]].
  destruct (videoFile s) as [f|]; [| right; split; [now left | reflexivity]].
  destruct (split_first_shape "."%char (name f))
    as (seg & l & Hsplit & Hfree & Hshape).
  rewrite Hsplit; cbn [Js.first hd_error Js.or_else].
  destruct seg as [|c seg]; cbn [Js.truthy].
  - right; split; [| reflexivity].
    right; exists f; split; [reflexivity |].
    destruct Hshape as [-> | (rest & ->)]; [now left |].
    right; exists rest; reflexivity.
  - left; exists f, (String c seg); repeat split; assumption.
Qed.

(** ** State lemmas *)

Lemma videoFile_deliver (ns : list Notification) (w : World) :
  videoFile (st (deliver ns w)) = videoFile (st w).
Proof. apply deliver_quiet. Qed.

Lemma gifUrl_deliver (ns : list Notification) (w : World) :
  gifUrl (st (deliver ns w)) = gifUrl (st w).
Proof. apply deliver_quiet. Qed.

Lemma isConverting_deliver (ns : list Notification) (w : World) :
  isConverting (st (deliver ns w)) = isConverting (st w).
Proof. apply deliver_quiet. Qed.

(** Normalises the cells of a world reached through setters and
    notifications. *)
Ltac state_simpl :=
  repeat (cbn -[deliver append error_entries] in *;
          rewrite ?deliver_nil, ?calls_deliver, ?ffmpegRef_deliver,
            ?ffmpegLoaded_deliver, ?videoFile_deliver, ?gifUrl_deliver,
            ?isConverting_deliver in * ).

(** The cells after an attempt are a function of the results of its
    steps. *)
Lemma attempt_ends_in (env : Env) (f : File) (w : World) :
  ffmpegRef w <> None ->
  st (snd (attempt env f w)) = attempt_state env f (st w).
Proof.
  intros Href;
    unfold attempt_state, attempt_result, attempt, convert_try,
      convert_catch, convert_finally; unfold_monad; state_simpl.
  destruct (ffmpegRef w) as [ffmpeg|]; [clear Href | congruence].
  destruct (fetchFile_res env f) as [e|]; state_simpl; [reflexivity |].
  destruct (writeFile_res env _ _) as [ns1 [b|e]]; state_simpl;
    [| reflexivity].
  destruct (exec_res env _) as [ns2 [z|e]]; state_simpl; [| reflexivity].
  destruct (readFile_res env _) as [ns3 [data|e]]; state_simpl;
    reflexivity.
Qed.

(** Mount touches neither the file, nor the GIF, nor [isConverting]. *)
Lemma mount_cells (rev : Source) (boot : Env) :
  let w := mount_of rev boot (initial_of rev) in
  videoFile (st w) = None /\
  gifUrl (st w) = None /\
  isConverting (st w) = false.
Proof.
  destruct rev; cbn;
    unfold Component.mount, Component.loadFfmpeg, Revision.mount,
      Revision.loadFfmpeg, load_try, load_catch;
    unfold_monad; state_simpl.
  all: destruct (toBlobURL_res boot _ _) as [coreURL|e]; state_simpl;
    [| repeat split].
  all: destruct (toBlobURL_res boot _ _) as [wasmURL|e]; state_simpl;
    [| repeat split].
  all: destruct (load_res boot coreURL wasmURL) as [ns [b|e]]; state_simpl;
    repeat split.
Qed.

(** A session, one event at a time. *)
Lemma run_snoc (rev : Source) (boot : Env) (evs : list Event) (ev : Event) :
  run_of rev boot (evs ++ [ev])%list
  = handle_of rev (run_of rev boot evs) ev.
Proof.
  destruct rev; cbn; unfold Component.run, Revision.run;
    now rewrite fold_left_app.
Qed.

(** What [convertToGif] does in a session: an early return that changes
    the message only, or an attempt on the selected file. *)
Lemma convertToGif_cases (rev : Source) (boot : Env) (evs : list Event)
  (env : Env) :
  let w := run_of rev boot evs in
  ((ffmpegLoaded (st w) = false \/ videoFile (st w) = None) /\
   exists m, convertToGif_of rev env w = lift (setMessage (Some m)) w) \/
  (exists f, ffmpegLoaded (st w) = true /\ videoFile (st w) = Some f /\
             convertToGif_of rev env w = attempt env f w).
Proof.
  intros w.
  assert (Href : ffmpegRef w = Some both_listeners) by apply run_ref.
  clearbody w.
  destruct (ffmpegLoaded (st w)) eqn:Hl.
  - destruct (videoFile (st w)) as [f|] eqn:Hf.
    + right; exists f; repeat split.
      apply convertToGif_guarded; [congruence | assumption..].
    + left; split; [now right |].
      destruct rev; cbn;
        unfold Component.convertToGif, Revision.convertToGif;
        rewrite ?Href, Hl, Hf; cbn; eauto.
  - left; split; [now left |].
    destruct rev; cbn;
      unfold Component.convertToGif, Revision.convertToGif;
      rewrite ?Href, Hl; cbn; eauto.
Qed.

(** ** What is rendered *)

(** X3.  Selecting a file in a loaded, idle component keeps the first
    file of the list and leaves a view made of the enabled file input and
    the enabled button only: a GIF shown before, the progress panel and
    the banners are gone.  Closing the dialog without a file changes
    nothing. *)
Theorem view_after_selecting_file (rev : Source) (w : World) (file : File)
  (files : list File) :
  ffmpegLoaded (st w) = true ->
  isConverting (st w) = false ->
  let w' := handleFileChange (Some (file :: files)) w in
  videoFile (st w') = Some file /\
  render_of rev (st w')
  = {| statusAlert := None;
       fileInput := Some false;
       convertButton := Some false;
       progressPanel := None;
       gifPanel := None;
       resultAlert := None |} /\
  calls w' = calls w /\
  handleFileChange None w = w /\
  handleFileChange (Some []) w = w.
Proof.
  intros Hl Hc w'; split; [reflexivity |].
  split; [| repeat split].
  destruct rev; cbn; unfold Component.render, Revision.render,
    render_fileInput, render_convertButton, render_gifPanel; cbn;
    rewrite Hl, Hc; reflexivity.
Qed.

(** X4.  No state makes either revision render two banners at once. *)
Theorem at_most_one_banner (rev : Source) (s : State) :
  statusAlert (render_of rev s) = None \/
  resultAlert (render_of rev s) = None.
Proof.
  destruct rev; [right; reflexivity |].
  cbn; destruct (ffmpegLoaded s); cbn; [| now right].
  destruct (opt_includes "Loading FFMPEG" (message s)); cbn.
  - right; now destruct (Js.truthy_opt (message s)).
  - now left.
Qed.

(** X5.  A banner that is rendered shows the message itself, never the
    fallback text; it is titled ["Error"] exactly when it has the
    destructive variant, which is exactly when the message starts with
    ["Error"]. *)
Theorem banner_shows_the_message (rev : Source) (s : State) (a : Alert) :
  statusAlert (render_of rev s) = Some a \/
  resultAlert (render_of rev s) = Some a ->
  message s = Some (alertDescription a) /\
  Js.truthy (alertDescription a) = true /\
  (variant a = destructive <->
   Js.startsWith "Error" (alertDescription a) = true) /\
  (alertTitle a = "Error" <-> variant a = destructive).
Proof.
  assert (Hshape : forall d,
            Js.truthy_opt (message s) = true ->
            a = alert_of (message s) (Js.or_else (message s) d) ->
            message s = Some (alertDescription a) /\
            Js.truthy (alertDescription a) = true /\
            (variant a = destructive <->
             Js.startsWith "Error" (alertDescription a) = true) /\
            (alertTitle a = "Error" <-> variant a = destructive)).
  { intros d Ht ->; destruct (message s) as [m|]; [| discriminate].
    unfold alert_of, opt_startsWith, Js.or_else; cbn in Ht; rewrite Ht.
    cbn [variant alertTitle alertDescription].
    split; [reflexivity | split; [exact Ht |]].
    destruct (Js.startsWith "Error" m); split; split;
      intros; first [reflexivity | discriminate]. }
  intros [Ha | Ha]; destruct rev; cbn in Ha; try discriminate;
    destruct (Js.truthy_opt (message s)) eqn:Ht;
    rewrite ?andb_false_r in Ha; try discriminate.
  - destruct (negb (ffmpegLoaded s)); [| discriminate].
    injection Ha as <-; now apply (Hshape "Loading FFMPEG...").
  - destruct (negb (ffmpegLoaded s) || _); [| discriminate].
    injection Ha as <-; now apply (Hshape "Loading FFMPEG...").
  - destruct (ffmpegLoaded s && _); [| discriminate].
    injection Ha as <-; now apply (Hshape EmptyString).
Qed.

(** ** Sessions, event by event *)

Lemma handle_FileChange (rev : Source) (w : World)
  (files : option (list File)) :
  handle_of rev w (FileChange files) = handleFileChange files w.
Proof. destruct rev; reflexivity. Qed.

Lemma handle_ClickConvert (rev : Source) (w : World) (env : Env) :
  handle_of rev w (ClickConvert env) = snd (convertToGif_of rev env w).
Proof. destruct rev; reflexivity. Qed.

Lemma handle_EngineNotify (rev : Source) (w : World) (n : Notification) :
  handle_of rev w (EngineNotify n) = notify w n.
Proof. destruct rev; reflexivity. Qed.

Lemma run_nil (rev : Source) (boot : Env) :
  run_of rev boot [] = mount_of rev boot (initial_of rev).
Proof. destruct rev; reflexivity. Qed.

(** Between two events no conversion is running, and a GIF is held only
    with the engine loaded and a file selected. *)
Lemma session_cells (rev : Source) (boot : Env) (evs : list Event) :
  let w := run_of rev boot evs in
  isConverting (st w) = false /\
  (gifUrl (st w) <> None ->
   ffmpegLoaded (st w) = true /\ videoFile (st w) <> None).
Proof.
  induction evs as [|ev evs IH] using rev_ind; cbn zeta.
  - rewrite run_nil; destruct (mount_cells rev boot) as (_ & Hg & Hc).
    split; [exact Hc | intros Hne; congruence].
  - rewrite run_snoc; cbn zeta in IH; destruct IH as (Hc & Hgif).
    pose proof (run_ref rev boot evs) as Href.
    pose proof (convertToGif_cases rev boot evs) as Hcases.
    set (w := run_of rev boot evs) in *; clearbody w.
    destruct ev as [files | env | n].
    + rewrite handle_FileChange; unfold handleFileChange.
      destruct (match files with Some l => Js.first l | None => None end);
        cbn; [| now split].
      split; [exact Hc | intros Hne; congruence].
    + rewrite handle_ClickConvert.
      destruct (Hcases env) as [(_ & m & ->) | (f & Hl & Hf & ->)].
      * cbn; now split.
      * rewrite attempt_ends_in by congruence.
        unfold attempt_state; cbn; split; [reflexivity |].
        intros _; split; [exact Hl | congruence].
    + rewrite handle_EngineNotify.
      destruct (notify_quiet w n) as (_ & _ & _ & Ql & Qf & Qg & Qc).
      rewrite Ql, Qf, Qg, Qc; now split.
Qed.

(** X6.  In every session, when the GIF panel is shown the engine is
    loaded, the file input is enabled and a file is selected, so the
    download name is always derived from the name of a file. *)
Theorem gif_shown_only_with_engine_and_file (rev : Source) (boot : Env)
  (evs : list Event) (g : GifPanel) :
  let w := run_of rev boot evs in
  gifPanel (render_of rev (st w)) = Some g ->
  ffmpegLoaded (st w) = true /\
  fileInput (render_of rev (st w)) = Some false /\
  exists f,
    videoFile (st w) = Some f /\
    download g
    = Js.or_else (Js.first (Js.split "."%char (name f))) "converted"
      ++ ".gif".
Proof.
  intros w Hg; destruct (session_cells rev boot evs) as (Hc & Hgif).
  fold w in Hc, Hgif; clearbody w.
  assert (Hpanel : gifPanel (render_of rev (st w)) = render_gifPanel (st w))
    by (destruct rev; reflexivity).
  assert (Hinput : fileInput (render_of rev (st w))
                   = render_fileInput (st w))
    by (destruct rev; reflexivity).
  rewrite Hpanel in Hg; rewrite Hinput; clear Hpanel Hinput.
  unfold render_gifPanel in Hg; unfold render_fileInput.
  destruct (gifUrl (st w)) as [url|]; [| discriminate].
  destruct Hgif as (Hl & Hf); [discriminate |].
  rewrite Hl, Hc in *.
  destruct (Js.truthy url); [| discriminate].
  destruct (videoFile (st w)) as [f|]; [| congruence].
  cbn in Hg; injection Hg as <-.
  split; [reflexivity | split; [reflexivity |]].
  exists f; split; reflexivity.
Qed.

(** X7.  Whatever a session did, it is not left converting: once the
    handlers have run, [isConverting] is false, the file input is not
    disabled and the progress panel is not labelled ["Converting..."]. *)
Theorem session_never_left_converting (rev : Source) (boot : Env)
  (evs : list Event) :
  let w := run_of rev boot evs in
  isConverting (st w) = false /\
  fileInput (render_of rev (st w)) <> Some true /\
  forall panel,
    progressPanel (render_of rev (st w)) = Some panel ->
    panelLabel panel = "Progress".
Proof.
  intros w; destruct (session_cells rev boot evs) as (Hc & _).
  fold w in Hc; clearbody w; split; [exact Hc |].
  split.
  - destruct rev; cbn; unfold render_fileInput; rewrite Hc;
      destruct (ffmpegLoaded (st w)); discriminate.
  - intros panel; destruct rev; cbn; rewrite Hc; cbn;
      match goal with
      | |- (if ?c then _ else _) = _ -> _ => destruct c
      end; intros Hp; inversion Hp; reflexivity.
Qed.

Lemma last_selected_snoc (evs : list Event) (ev : Event)
  (current : option File) :
  last_selected (evs ++ [ev])%list current
  = match selected_by ev with
    | Some file => Some file
    | None => last_selected evs current
    end.
Proof.
  revert current; induction evs as [|e evs IH]; intros current; cbn.
  - reflexivity.
  - apply IH.
Qed.

(** X8.  The selected file is always the first file of the most recent
    selection that carried one: conversions, successful or not, and
    notifications never change or clear it. *)
Theorem videoFile_is_last_selection (rev : Source) (boot : Env)
  (evs : list Event) :
  videoFile (st (run_of rev boot evs)) = last_selected evs None.
Proof.
  induction evs as [|ev evs IH] using rev_ind.
  - rewrite run_nil; apply mount_cells.
  - rewrite run_snoc, last_selected_snoc, <- IH.
    pose proof (run_ref rev boot evs) as Href.
    pose proof (convertToGif_cases rev boot evs) as Hcases.
    set (w := run_of rev boot evs) in *; clearbody w.
    destruct ev as [files | env | n].
    + rewrite handle_FileChange; unfold handleFileChange.
      destruct files as [[|file files]|]; reflexivity.
    + rewrite handle_ClickConvert; cbn [selected_by].
      destruct (Hcases env) as [(_ & m & ->) | (f & Hl & Hf & ->)];
        [reflexivity |].
      now rewrite attempt_ends_in by congruence.
    + rewrite handle_EngineNotify; apply notify_quiet.
Qed.

(** ** The bootstrap *)

Lemma bootstrap_dichotomy (boot : Env) :
  bootstrap_succeeds boot \/ exists e, bootstrap_throws boot e.
Proof.
  destruct (toBlobURL_res boot (baseURL ++ "/ffmpeg-core.js")
              "text/javascript") as [coreURL|e] eqn:Hc;
    [| right; exists e; now apply core_throws].
  destruct (toBlobURL_res boot (baseURL ++ "/ffmpeg-core.wasm")
              "application/wasm") as [wasmURL|e] eqn:Hw;
    [| right; exists e; now apply (wasm_throws boot e coreURL)].
  destruct (load_res boot coreURL wasmURL) as [ns [b|e]] eqn:Hl.
  - left; exists coreURL, wasmURL, ns, b; repeat split; assumption.
  - right; exists e; now apply (load_throws boot e coreURL wasmURL ns).
Qed.

Lemma mount_succeeds (rev : Source) (boot : Env) :
  bootstrap_succeeds boot ->
  let w0 := mount_of rev boot (initial_of rev) in
  ffmpegLoaded (st w0) = true /\
  message (st w0) = Some "FFMPEG loaded successfully!".
Proof.
  intros (coreURL & wasmURL & ns & b & Hc & Hw & Hl); destruct rev; cbn;
    unfold Component.mount, Component.loadFfmpeg, Revision.mount,
      Revision.loadFfmpeg, load_try, load_catch;
    unfold_monad; world_simpl; rewrite Hc; world_simpl; rewrite Hw;
    world_simpl; rewrite Hl; world_simpl; split; reflexivity.
Qed.

Lemma mount_calls (rev : Source) (boot : Env) :
  calls (mount_of rev boot (initial_of rev))
  = On "log" logListener :: On "progress" progressListener
    :: bootstrap_calls boot.
Proof.
  destruct rev; cbn;
    unfold Component.mount, Component.loadFfmpeg, Revision.mount,
      Revision.loadFfmpeg, load_try, load_catch, bootstrap_calls;
    unfold_monad; world_simpl.
  all: destruct (toBlobURL_res boot _ _) as [coreURL|e]; world_simpl;
    [| reflexivity].
  all: destruct (toBlobURL_res boot _ _) as [wasmURL|e]; world_simpl;
    [| reflexivity].
  all: destruct (load_res boot coreURL wasmURL) as [ns [b|e]]; world_simpl;
    reflexivity.
Qed.

(** X9.  In every session the engine counts as loaded exactly when the
    bootstrap succeeded (both assets fetched and [load] returned): no
    later event loads or unloads it. *)
Theorem engine_loaded_iff_bootstrap_succeeded (rev : Source) (boot : Env)
  (evs : list Event) :
  ffmpegLoaded (st (run_of rev boot evs)) = true <->
  bootstrap_succeeds boot.
Proof.
  destruct (run_evolves rev boot evs) as (_ & -> & _).
  split.
  - intros Hl; destruct (bootstrap_dichotomy boot) as [Hs | (e & He)];
      [exact Hs |].
    destruct (mount_fails rev boot e He) as (Hf & _); congruence.
  - intros Hs; now apply mount_succeeds.
Qed.

(** X10.  The mount effect registers the log listener, then the progress
    listener, then fetches the script, then the module, then calls [load]
    with the two blob URLs it obtained, and stops at the first step that
    throws: the module is not fetched when the script could not be, and
    [load] is not called when an asset is missing.  When all succeed the
    last message is the success text, whatever the engine logged while
    loading. *)
Theorem bootstrap_in_order (rev : Source) (boot : Env)
  (coreURL wasmURL : string) :
  let core := toBlobURL_res boot (baseURL ++ "/ffmpeg-core.js")
                "text/javascript" in
  let wasm := toBlobURL_res boot (baseURL ++ "/ffmpeg-core.wasm")
                "application/wasm" in
  let w0 := mount_of rev boot (initial_of rev) in
  let registered := [On "log" logListener; On "progress" progressListener] in
  let fetch_core := ToBlobURL (baseURL ++ "/ffmpeg-core.js")
                      "text/javascript" in
  let fetch_wasm := ToBlobURL (baseURL ++ "/ffmpeg-core.wasm")
                      "application/wasm" in
  ((exists e, core = Throw e) ->
   calls w0 = (registered ++ [fetch_core])%list) /\
  (core = Ok coreURL -> (exists e, wasm = Throw e) ->
   calls w0 = (registered ++ [fetch_core; fetch_wasm])%list) /\
  (core = Ok coreURL -> wasm = Ok wasmURL ->
   calls w0
   = (registered ++ [fetch_core; fetch_wasm; Load coreURL wasmURL])%list) /\
  (bootstrap_succeeds boot ->
   message (st w0) = Some "FFMPEG loaded successfully!").
Proof.
  cbn zeta; rewrite mount_calls; unfold bootstrap_calls.
  split; [| split; [| split]].
  - intros (e & ->); reflexivity.
  - intros -> (e & ->); reflexivity.
  - intros -> ->; reflexivity.
  - intros Hs; now apply mount_succeeds.
Qed.

(** While the engine is not loaded, an event makes no call and produces
    no GIF. *)
Lemma unloaded_step (rev : Source) (boot : Env) (evs : list Event)
  (ev : Event) :
  let w := run_of rev boot evs in
  ffmpegLoaded (st w) = false ->
  calls (handle_of rev w ev) = calls w /\
  (gifUrl (st w) = None -> gifUrl (st (handle_of rev w ev)) = None).
Proof.
  intros w Hl.
  pose proof (convertToGif_cases rev boot evs) as Hcases; fold w in Hcases.
  clearbody w; destruct ev as [files | env | n].
  - rewrite handle_FileChange; unfold handleFileChange.
    destruct (match files with Some l => Js.first l | None => None end);
      now split.
  - rewrite handle_ClickConvert.
    destruct (Hcases env) as [(_ & m & ->) | (f & Hl' & _)];
      [now split | congruence].
  - rewrite handle_EngineNotify.
    destruct (notify_quiet w n) as (_ & Qc & _ & _ & _ & Qg & _).
    rewrite Qc, Qg; now split.
Qed.

(** X11.  After a failed bootstrap the session is inert: whatever events
    follow, no call is made beyond those of the mount effect, no GIF is
    produced, and neither the file input, nor the button, nor the
    progress panel, nor the GIF panel, nor the result banner is
    rendered. *)
Theorem failed_bootstrap_session_is_inert (rev : Source) (boot : Env)
  (e : Js.Thrown) (evs : list Event) :
  bootstrap_throws boot e ->
  let w := run_of rev boot evs in
  let v := render_of rev (st w) in
  calls w = calls (mount_of rev boot (initial_of rev)) /\
  gifUrl (st w) = None /\
  fileInput v = None /\
  convertButton v = None /\
  progressPanel v = None /\
  gifPanel v = None /\
  resultAlert v = None.
Proof.
  intros Hthrow w v.
  assert (Hl : ffmpegLoaded (st w) = false).
  { destruct (run_evolves rev boot evs) as (_ & Hl & _).
    unfold w; rewrite Hl; now apply (mount_fails rev boot e). }
  assert (Hcells : calls w = calls (mount_of rev boot (initial_of rev)) /\
                   gifUrl (st w) = None).
  { unfold w; clear w v Hl.
    induction evs as [|ev evs IH] using rev_ind.
    - rewrite run_nil; split; [reflexivity | apply mount_cells].
    - destruct IH as (IHc & IHg); rewrite run_snoc.
      destruct (unloaded_step rev boot evs ev) as (Hc & Hg).
      + destruct (run_evolves rev boot evs) as (_ & Hl & _).
        rewrite Hl; now apply (mount_fails rev boot e).
      + rewrite Hc, IHc; split; [reflexivity | now apply Hg]. }
  destruct Hcells as (Hcalls & Hgif).
  split; [exact Hcalls | split; [exact Hgif |]].
  unfold v; clearbody w; clear v.
  destruct rev; cbn; unfold render_fileInput, render_convertButton,
    render_gifPanel; rewrite Hl, Hgif; cbn; rewrite ?andb_false_r;
    repeat split.
Qed.

(** ** Running the mount effect again *)

(** X13.  In the revision the guard of the effect works: running the
    effect again after any session, with any answers of the outside
    world, changes nothing. *)
Theorem revision_effect_runs_once (boot again : Env) (evs : list Event) :
  Revision.mount again (Revision.run boot evs) = Revision.run boot evs.
Proof.
  pose proof (run_ref part_000 boot evs) as Href; cbn [run_of] in Href.
  unfold Revision.mount; now rewrite Href.
Qed.

Lemma session_on_log_calls (rev : Source) (boot : Env) (evs : list Event) :
  on_log_calls (calls (run_of rev boot evs)) = [On "log" logListener].
Proof.
  destruct (mount_spec rev boot) as (_ & _ & Hon).
  destruct (run_calls rev boot evs) as (l & -> & Hconv).
  pose proof (on_log_conversion l Hconv) as Hnone.
  unfold on_log_calls in *; now rewrite filter_app, Hon, Hnone.
Qed.

(** X14.  In [src/components/VideoConverter.tsx] the effect has no guard:
    running it again after any session registers both listeners a second
    time, so that from then on every log line of the engine is written to
    the console twice. *)
Theorem component_effect_again_doubles_listeners (boot again : Env)
  (evs : list Event) (logMessage : string) :
  let w := Component.mount again (Component.run boot evs) in
  ffmpegRef w
  = Some {| listeners :=
              [ ("log", logListener); ("progress", progressListener);
                ("log", logListener); ("progress", progressListener) ] |} /\
  on_log_calls (calls w) = [On "log" logListener; On "log" logListener] /\
  console (notify w (Log logMessage))
  = (console w ++ [ ConsoleLog [VStr logMessage];
                    ConsoleLog [VStr logMessage] ])%list /\
  message (st (notify w (Log logMessage))) = Some logMessage.
Proof.
  pose proof (run_ref components_VideoConverter boot evs) as Href.
  pose proof (session_on_log_calls components_VideoConverter boot evs)
    as Hon.
  cbn [run_of] in Href, Hon.
  set (w0 := Component.run boot evs) in *; clearbody w0.
  unfold Component.mount, Component.loadFfmpeg, load_try, load_catch,
    notify, on_log_calls in *;
    unfold_monad; unfold_monad; world_simpl; rewrite Href; world_simpl.
  destruct (toBlobURL_res again _ _) as [coreURL|e]; world_simpl.
  2: { rewrite !filter_app, Hon; repeat split; now rewrite <- !app_assoc. }
  destruct (toBlobURL_res again _ _) as [wasmURL|e]; world_simpl.
  2: { rewrite !filter_app, Hon; repeat split; now rewrite <- !app_assoc. }
  destruct (load_res again coreURL wasmURL) as [ns [b|e]]; world_simpl;
    rewrite !filter_app, Hon; repeat split; now rewrite <- !app_assoc.
Qed.

(** ** The outcome of a conversion *)

(** X15.  The cells a conversion ends in depend only on whether each step
    threw and on the object URL: the progress and log notifications
    received meanwhile, the previous message, progress and GIF, and the
    exit code returned by [exec] leave no trace.  In particular a command
    that returns a non-zero exit code is not treated as a failure. *)
Theorem conversion_outcome_from_results (rev : Source) (boot : Env)
  (evs : list Event) (env : Env) (f : File) :
  let w := run_of rev boot evs in
  ffmpegLoaded (st w) = true ->
  videoFile (st w) = Some f ->
  st (snd (convertToGif_of rev env w))
  = {| ffmpegLoaded := true;
       videoFile := Some f;
       gifUrl := match attempt_result env f with
                 | Ok url => Some url
                 | Throw _ => None
                 end;
       isConverting := false;
       progress := 100;
       message := match attempt_result env f with
                  | Ok _ => Some "GIF generated successfully!"
                  | Throw e => Some ("Conversion error: " ++ Js.toString e)
                  end |}.
Proof.
  intros w Hl Hf.
  assert (Href : ffmpegRef w <> None)
    by (unfold w; rewrite run_ref; discriminate).
  rewrite (convertToGif_guarded rev env w f Href Hl Hf).
  rewrite (attempt_ends_in env f w Href); unfold attempt_state.
  now rewrite Hl, Hf.
Qed.

(** X16.  After a conversion that succeeded with a non-empty object URL,
    the file input and the button are enabled again and the GIF panel
    shows the URL; [src/components/VideoConverter.tsx] keeps the progress
    panel at 100 with the success text, the revision drops the panel and
    shows the success text in a banner of the default variant. *)
Theorem view_after_successful_conversion (rev : Source) (boot : Env)
  (evs : list Event) (env : Env) (f : File) (url : string) :
  let w := run_of rev boot evs in
  ffmpegLoaded (st w) = true ->
  videoFile (st w) = Some f ->
  attempt_result env f = Ok url ->
  Js.truthy url = true ->
  render_of rev (st (snd (convertToGif_of rev env w)))
  = {| statusAlert := None;
       fileInput := Some false;
       convertButton := Some false;
       progressPanel :=
         match rev with
         | components_VideoConverter =>
             Some {| panelLabel := "Progress";
                     panelValue := 100;
                     panelMessage := Some "GIF generated successfully!" |}
         | part_000 => None
         end;
       gifPanel :=
         Some {| src := url;
                 download :=
                   Js.or_else (Js.first (Js.split "."%char (name f)))
                     "converted" ++ ".gif" |};
       resultAlert :=
         match rev with
         | components_VideoConverter => None
         | part_000 =>
             Some {| variant := default;
                     alertTitle := "Status";
                     alertDescription := "GIF generated successfully!" |}
         end |}.
Proof.
  intros w Hl Hf Hres Hurl.
  assert (Href : ffmpegRef w <> None)
    by (unfold w; rewrite run_ref; discriminate).
  rewrite (convertToGif_guarded rev env w f Href Hl Hf).
  rewrite (attempt_ends_in env f w Href); unfold attempt_state.
  rewrite Hl, Hf, Hres; clearbody w.
  destruct rev; cbn [render_of];
    unfold Component.render, Revision.render, render_gifPanel;
    cbn [ffmpegLoaded videoFile gifUrl isConverting progress message];
    rewrite Hurl; reflexivity.
Qed.

(** X17.  After a conversion that failed, the error text is on screen in
    both revisions: in the progress panel of
    [src/components/VideoConverter.tsx], and in the revision in the
    result banner, or in the status banner when the text happens to
    contain ["Loading FFMPEG"]. *)
Theorem conversion_error_is_displayed (rev : Source) (boot : Env)
  (evs : list Event) (env : Env) (f : File) (e : Js.Thrown) :
  let w := run_of rev boot evs in
  ffmpegLoaded (st w) = true ->
  videoFile (st w) = Some f ->
  attempt_result env f = Throw e ->
  let text := "Conversion error: " ++ Js.toString e in
  let v := render_of rev (st (snd (convertToGif_of rev env w))) in
  gifPanel v = None /\
  match rev with
  | components_VideoConverter =>
      progressPanel v
      = Some {| panelLabel := "Progress";
                panelValue := 100;
                panelMessage := Some text |}
  | part_000 =>
      (Js.includes "Loading FFMPEG" text = false /\
       resultAlert v = Some (alert_of (Some text) text)) \/
      (Js.includes "Loading FFMPEG" text = true /\
       statusAlert v = Some (alert_of (Some text) text))
  end.
Proof.
  intros w Hl Hf Hres text v.
  assert (Href : ffmpegRef w <> None)
    by (unfold w; rewrite run_ref; discriminate).
  unfold v; rewrite (convertToGif_guarded rev env w f Href Hl Hf).
  rewrite (attempt_ends_in env f w Href); unfold attempt_state.
  rewrite Hl, Hf, Hres; clearbody w.
  change ("Conversion error: " ++ Js.toString e) with text.
  assert (Htext : Js.truthy text = true) by reflexivity.
  clearbody text; destruct rev; (split; [reflexivity |]).
  - unfold render_of, Component.render, Js.truthy_opt;
      cbn [progressPanel ffmpegLoaded message isConverting progress].
    rewrite Htext; reflexivity.
  - unfold render_of, Revision.render, opt_includes, Js.truthy_opt,
      Js.or_else;
      cbn [statusAlert resultAlert ffmpegLoaded message isConverting
             progress].
    rewrite Htext; destruct (Js.includes "Loading FFMPEG" text);
      [right | left]; split; reflexivity.
Qed.


(** ** Notifications *)



Lemma session_progress (rev : Source) (boot : Env) (evs : list Event)
  (p time : Q) :
  progress (st (notify (run_of rev boot evs) (Progress p time)))
  = Js.Math_round (fmul p 100).
Proof. unfold notify; now rewrite run_ref. Qed.


(** Binary64 holds the integers below [2^53] exactly. *)
Lemma rne_proper (x y : Q) : x == y -> rne x = rne y.
Proof.
  intros Hxy; apply Z.le_antisymm; apply rne_mono; rewrite Hxy;
    apply Qle_refl.
Qed.

Lemma round_pos_int (n : Z) :
  (0 < n < 2 ^ 53)%Z -> round_pos (inject_Z n) == inject_Z n.
Proof.
  intros [Hpos Hlt].
  assert (Hq : 0 < inject_Z n) by (change 0 with (inject_Z 0);
                                   now rewrite <- Zlt_Qlt).
  destruct (ilog2_spec (inject_Z n) Hq) as [Hlo _].
  assert (Hlog : (ilog2 (inject_Z n) < 53)%Z).
  { apply pow2_lt_inv, Qle_lt_trans with (inject_Z n); [exact Hlo |].
    rewrite (pow2_Z 53) by lia; now rewrite <- Zlt_Qlt. }
  unfold round_pos; set (e := ulp_exp (inject_Z n)).
  assert (He : (0 <= - e)%Z) by (unfold e, ulp_exp; lia).
  assert (Hscaled : inject_Z n * pow2 (- e) == inject_Z (n * 2 ^ (- e)))
    by (rewrite (pow2_Z _ He), inject_Z_mult; reflexivity).
  rewrite (rne_proper _ _ Hscaled), rne_inject, inject_Z_mult.
  rewrite <- (pow2_Z _ He), <- Qmult_assoc.
  rewrite (Qmult_comm (pow2 (- e))), pow2_cancel; ring.
Qed.

Lemma round_binary64_proper (a b : Q) :
  a == b -> round_binary64 a == round_binary64 b.
Proof.
  intros Hab; apply Qle_antisym; apply round_binary64_mono; rewrite Hab;
    apply Qle_refl.
Qed.

Lemma round_binary64_int (n : Z) :
  (Z.abs n < 2 ^ 53)%Z -> round_binary64 (inject_Z n) == inject_Z n.
Proof.
  intros Hn; unfold round_binary64.
  destruct (Qcompare_spec (inject_Z n) 0) as [E|E|E].
  - now rewrite E.
  - change 0 with (inject_Z 0) in E; rewrite <- Zlt_Qlt in E.
    assert (Hopp : - inject_Z n == inject_Z (- n))
      by (rewrite inject_Z_opp; reflexivity).
    assert (Hr : round_pos (- inject_Z n) == round_pos (inject_Z (- n))).
    { assert (Hp : 0 < inject_Z (- n))
        by (change 0 with (inject_Z 0); rewrite <- Zlt_Qlt; lia).
      apply Qle_antisym; apply round_pos_mono; rewrite ?Hopp;
        first [exact Hp | apply Qle_refl]. }
    rewrite Hr, round_pos_int by lia.
    rewrite inject_Z_opp; ring.
  - change 0 with (inject_Z 0) in E; rewrite <- Zlt_Qlt in E.
    apply round_pos_int; lia.
Qed.

Lemma Math_round_int (n : Z) : Js.Math_round (inject_Z n) = n.
Proof.
  unfold Js.Math_round.
  apply Z.le_antisymm.
  - assert (Hlt : (Qfloor (inject_Z n + (1 # 2)) < n + 1)%Z); [| lia].
    rewrite Zlt_Qlt.
    apply Qle_lt_trans with (inject_Z n + (1 # 2)); [apply Qfloor_le |].
    rewrite inject_Z_plus; change (inject_Z 1) with 1; lra.
  - rewrite <- (Qfloor_Z n) at 1; apply Qfloor_resp_le; lra.
Qed.

(** X21.  When the fraction is an exact number of hundredths, the
    progress shown is that number: the binary64 product introduces no
    error on integers below [2^53]. *)
Theorem progress_exact_on_whole_percentages (rev : Source) (boot : Env)
  (evs : list Event) (p time : Q) (n : Z) :
  let w := run_of rev boot evs in
  p * 100 == inject_Z n ->
  (Z.abs n < 2 ^ 53)%Z ->
  progress (st (notify w (Progress p time))) = n.
Proof.
  intros w Hp Hn; unfold w; rewrite session_progress.
  unfold Js.Math_round, fmul.
  rewrite (round_binary64_proper _ _ Hp), (round_binary64_int n Hn).
  apply Math_round_int.
Qed.

(** ** The further properties on sample sessions *)

Lemma download_name_shape_witness :
  gifPanel (render_of part_000 (st (converted_dotfile part_000)))
  = Some {| src := "blob:gif"; download := "converted.gif" |} /\
  ((exists f seg,
      videoFile (st (converted_dotfile part_000)) = Some f /\
      Js.truthy seg = true /\
      Js.includes "." seg = false /\
      (name f = seg \/ exists rest, name f = seg ++ "." ++ rest) /\
      "converted.gif" = seg ++ ".gif") \/
   ((videoFile (st (converted_dotfile part_000)) = None \/
     exists f, videoFile (st (converted_dotfile part_000)) = Some f /\
               (name f = EmptyString \/
                exists rest, name f = "." ++ rest)) /\
    "converted.gif" = "converted.gif")).
Proof.
  split; [reflexivity |].
  apply (download_name_shape part_000 (st (converted_dotfile part_000))
           {| src := "blob:gif"; download := "converted.gif" |}).
  reflexivity.
Defined.

Lemma view_after_selecting_file_witness :
  (ffmpegLoaded (st (converted part_000)) = true /\
   isConverting (st (converted part_000)) = false /\
   gifUrl (st (converted part_000)) = Some "blob:gif") /\
  videoFile
    (st (handleFileChange (Some [dotfile; clip]) (converted part_000)))
  = Some dotfile /\
  render_of part_000
    (st (handleFileChange (Some [dotfile; clip]) (converted part_000)))
  = {| statusAlert := None;
       fileInput := Some false;
       convertButton := Some false;
       progressPanel := None;
       gifPanel := None;
       resultAlert := None |}.
Proof.
  split; [repeat split |].
  destruct (view_after_selecting_file part_000 (converted part_000)
              dotfile [clip]) as (Hfile & Hview & _);
    [reflexivity | reflexivity |].
  split; [exact Hfile | exact Hview].
Defined.

Lemma banner_shows_the_message_witness :
  statusAlert (render_of part_000 (st (never_loaded part_000)))
  = Some {| variant := destructive;
            alertTitle := "Error";
            alertDescription := "Error loading FFMPEG: Error: boom" |} /\
  message (st (never_loaded part_000))
  = Some "Error loading FFMPEG: Error: boom".
Proof.
  split; [reflexivity |].
  apply (banner_shows_the_message part_000 (st (never_loaded part_000))
           {| variant := destructive;
              alertTitle := "Error";
              alertDescription := "Error loading FFMPEG: Error: boom" |}).
  left; reflexivity.
Defined.

Lemma gif_shown_only_with_engine_and_file_witness :
  gifPanel (render_of components_VideoConverter
              (st (converted components_VideoConverter)))
  = Some {| src := "blob:gif"; download := "holiday.gif" |} /\
  ffmpegLoaded (st (converted components_VideoConverter)) = true /\
  fileInput (render_of components_VideoConverter
               (st (converted components_VideoConverter))) = Some false.
Proof.
  split; [reflexivity |].
  destruct (gif_shown_only_with_engine_and_file components_VideoConverter
              env_ok [FileChange (Some [clip]); ClickConvert env_ok]
              {| src := "blob:gif"; download := "holiday.gif" |})
    as (Hl & Hinput & _); [reflexivity |].
  split; [exact Hl | exact Hinput].
Defined.

Lemma failed_bootstrap_session_is_inert_witness :
  bootstrap_throws env_load_fails boom /\
  calls (run_of part_000 env_load_fails events_after_failure)
  = calls (mount_of part_000 env_load_fails (initial_of part_000)) /\
  gifUrl (st (run_of part_000 env_load_fails events_after_failure))
  = None /\
  fileInput
    (render_of part_000
       (st (run_of part_000 env_load_fails events_after_failure)))
  = None.
Proof.
  split; [eapply load_throws; reflexivity |].
  destruct (failed_bootstrap_session_is_inert part_000 env_load_fails boom
              events_after_failure) as (Hcalls & Hgif & Hinput & _);
    [eapply load_throws; reflexivity |].
  split; [exact Hcalls | split; [exact Hgif | exact Hinput]].
Defined.

Lemma conversion_outcome_from_results_witness :
  (ffmpegLoaded (st (ready part_000)) = true /\
   videoFile (st (ready part_000)) = Some clip /\
   snd (exec_res env_exit_code_1 (exec_args clip)) = Ok 1%Z) /\
  st (snd (convertToGif_of part_000 env_exit_code_1 (ready part_000)))
  = {| ffmpegLoaded := true;
       videoFile := Some clip;
       gifUrl := match attempt_result env_exit_code_1 clip with
                 | Ok url => Some url
                 | Throw _ => None
                 end;
       isConverting := false;
       progress := 100;
       message := match attempt_result env_exit_code_1 clip with
                  | Ok _ => Some "GIF generated successfully!"
                  | Throw e => Some ("Conversion error: " ++ Js.toString e)
                  end |} /\
  attempt_result env_exit_code_1 clip = Ok "blob:partial".
Proof.
  split; [repeat split |].
  split; [| reflexivity].
  apply (conversion_outcome_from_results part_000 env_ok file_selected
           env_exit_code_1 clip); reflexivity.
Defined.

Lemma view_after_successful_conversion_witness :
  (ffmpegLoaded (st (ready part_000)) = true /\
   videoFile (st (ready part_000)) = Some clip /\
   attempt_result env_ok clip = Ok "blob:gif" /\
   Js.truthy "blob:gif" = true) /\
  render_of part_000 (st (snd (convertToGif_of part_000 env_ok
                                 (ready part_000))))
  = {| statusAlert := None;
       fileInput := Some false;
       convertButton := Some false;
       progressPanel := None;
       gifPanel :=
         Some {| src := "blob:gif";
                 download :=
                   Js.or_else (Js.first (Js.split "."%char (name clip)))
                     "converted" ++ ".gif" |};
       resultAlert :=
         Some {| variant := default;
                 alertTitle := "Status";
                 alertDescription := "GIF generated successfully!" |} |}.
Proof.
  split; [repeat split |].
  apply (view_after_successful_conversion part_000 env_ok file_selected
           env_ok clip "blob:gif"); reflexivity.
Defined.

Lemma conversion_error_is_displayed_witness :
  (ffmpegLoaded (st (ready components_VideoConverter)) = true /\
   videoFile (st (ready components_VideoConverter)) = Some clip /\
   attempt_result env_exec_fails clip = Throw boom) /\
  gifPanel
    (render_of components_VideoConverter
       (st (snd (convertToGif_of components_VideoConverter env_exec_fails
                   (ready components_VideoConverter))))) = None /\
  progressPanel
    (render_of components_VideoConverter
       (st (snd (convertToGif_of components_VideoConverter env_exec_fails
                   (ready components_VideoConverter)))))
  = Some {| panelLabel := "Progress";
            panelValue := 100;
            panelMessage :=
              Some ("Conversion error: " ++ Js.toString boom) |}.
Proof.
  split; [repeat split |].
  apply (conversion_error_is_displayed components_VideoConverter env_ok
           file_selected env_exec_fails clip boom); reflexivity.
Defined.



Lemma progress_exact_on_whole_percentages_witness :
  (2 * 100 == inject_Z 200 /\ (Z.abs 200 < 2 ^ 53)%Z) /\
  progress (st (notify (run_of part_000 env_ok file_selected)
                  (Progress 2 1))) = 200%Z.
Proof.
  split; [split; reflexivity |].
  exact (progress_exact_on_whole_percentages part_000 env_ok file_selected
           2 1 200 ltac:(reflexivity) ltac:(reflexivity)).
Defined.

